(** * TranslucentTB: the win32 facade (src/TranslucentTB/win32.cpp)

    A shallow embedding of the operating-system facade of TranslucentTB.
    Every function of the facade talks to Windows; the embedding threads an
    explicit [World] through the code.  The world holds

    - an [Oracle]: what each Win32 entry point answers, as a function of
      everything that happened before (the chronological [trace]);
    - the [trace] itself: every Win32 call with its answer, and every call of
      the error sink, in program order;
    - the calling thread's last-error value;
    - the process-wide [m_ExeLocation] cache;
    - the movable global memory blocks of the process and the clipboard.

    The code is written in a small state monad over [World]. *)

From Stdlib Require Import ZArith List String Ascii Bool Lia.
Import ListNotations.
Local Open Scope Z_scope.

(** ** Machine data *)

Definition DWORD := Z.
Definition UINT := Z.
Definition HRESULT := Z.
Definition HGLOBAL := Z.

(** [wchar_t] is a 16-bit code unit, [std::wstring] a sequence of them. *)
Definition wchar := Z.
Definition wstring := list wchar.

Definition wchar_of_ascii (a : ascii) : wchar := Z.of_N (N_of_ascii a).

(** The wide literal [L"..."]. *)
Definition L (s : string) : wstring := map wchar_of_ascii (list_ascii_of_string s).

Definition wempty (s : wstring) : bool :=
  match s with [] => true | _ :: _ => false end.

(** [std::wstring::operator[](pos)]: the element when [pos < size()], the
    null character when [pos = size()], and undefined behaviour ([None])
    when [pos > size()]. *)
Definition wstring_at (s : wstring) (pos : nat) : option wchar :=
  if (pos <? List.length s)%nat then nth_error s pos
  else if (pos =? List.length s)%nat then Some 0
  else None.

(** 32-bit views of an integer. *)
Definition to_u32 (x : Z) : Z := x mod 2 ^ 32.
Definition to_i32 (x : Z) : Z :=
  let u := to_u32 x in if u <? 2 ^ 31 then u else u - 2 ^ 32.

(** winerror.h *)
Definition S_OK : HRESULT := 0.
Definition FACILITY_WIN32 : Z := 7.
Definition ERROR_FILE_NOT_FOUND : DWORD := 2.
Definition ERROR_PATH_NOT_FOUND : DWORD := 3.
Definition ERROR_OLD_WIN_VERSION : DWORD := 1150.

(** [HRESULT_FROM_WIN32(x)]:
    [(HRESULT)(x) <= 0 ? (HRESULT)(x)
                       : (HRESULT)((x & 0x0000FFFF) | (FACILITY_WIN32 << 16) | 0x80000000)]. *)
Definition HRESULT_FROM_WIN32 (x : DWORD) : HRESULT :=
  if to_i32 x <=? 0 then to_i32 x
  else to_i32 (Z.lor (Z.lor (Z.land x 65535) (Z.shiftl FACILITY_WIN32 16)) 2147483648).

Definition SUCCEEDED (hr : HRESULT) : bool := 0 <=? hr.
Definition FAILED (hr : HRESULT) : bool := hr <? 0.

(** fileapi.h / winnt.h / WinBase.h *)
Definition INVALID_FILE_ATTRIBUTES : DWORD := 4294967295.
Definition FILE_ATTRIBUTE_DIRECTORY : DWORD := 16.
Definition DRIVE_REMOTE : UINT := 4.
Definition VER_MINORVERSION : DWORD := 1.
Definition VER_MAJORVERSION : DWORD := 2.
Definition VER_BUILDNUMBER : DWORD := 4.
Definition VER_GREATER_EQUAL : Z := 3.
Definition CF_UNICODETEXT : UINT := 13.
Definition SEE_MASK_CLASSNAME : DWORD := 1.
Definition SW_SHOW : Z := 5.

(** ** The error channel *)

(** [Error::Level] of ttberror.hpp. *)
Inductive Level := Debug | Log | Error | Fatal.

(** ** Win32 data passed to and from the system *)

(** The answer of a Win32 entry point: a value, or a failure that leaves
    [err] as the thread's last-error value. *)
Inductive ApiResult (A : Type) :=
| Ok (a : A)
| Fail (err : DWORD).
Arguments Ok {A} a.
Arguments Fail {A} err.

Definition succeeded {A} (r : ApiResult A) : bool :=
  match r with Ok _ => true | Fail _ => false end.

Record OSVERSIONINFOEX := {
  dwMajorVersion : DWORD;
  dwMinorVersion : DWORD;
  dwBuildNumber : DWORD
}.

(** The mitigation policy structures of winnt.h, one boolean per bit-field. *)
Record PROCESS_MITIGATION_ASLR_POLICY := {
  EnableBottomUpRandomization : bool;
  EnableForceRelocateImages : bool;
  EnableHighEntropy : bool;
  DisallowStrippedImages : bool
}.

Record PROCESS_MITIGATION_DYNAMIC_CODE_POLICY := {
  ProhibitDynamicCode : bool;
  AllowThreadOptOut : bool;
  AllowRemoteDowngrade : bool
}.

Record PROCESS_MITIGATION_STRICT_HANDLE_CHECK_POLICY := {
  RaiseExceptionOnInvalidHandleReference : bool;
  HandleExceptionsPermanentlyEnabled : bool
}.

Record PROCESS_MITIGATION_EXTENSION_POINT_DISABLE_POLICY := {
  DisableExtensionPoints : bool
}.

Record PROCESS_MITIGATION_BINARY_SIGNATURE_POLICY := {
  MicrosoftSignedOnly : bool;
  StoreSignedOnly : bool;
  MitigationOptIn : bool
}.

Record PROCESS_MITIGATION_IMAGE_LOAD_POLICY := {
  NoRemoteImages : bool;
  NoLowMandatoryLabelImages : bool;
  PreferSystem32Images : bool
}.

(** [PROCESS_MITIGATION_POLICY]: the identifiers the facade uses. *)
Inductive PROCESS_MITIGATION_POLICY :=
| ProcessASLRPolicy
| ProcessDynamicCodePolicy
| ProcessStrictHandleCheckPolicy
| ProcessExtensionPointDisablePolicy
| ProcessSignaturePolicy
| ProcessImageLoadPolicy.

(** The buffer handed to [SetProcessMitigationPolicy], tagged by the policy
    identifier that goes with it. *)
Inductive PolicyBuffer :=
| AslrBuffer (p : PROCESS_MITIGATION_ASLR_POLICY)
| DynamicCodeBuffer (p : PROCESS_MITIGATION_DYNAMIC_CODE_POLICY)
| StrictHandleBuffer (p : PROCESS_MITIGATION_STRICT_HANDLE_CHECK_POLICY)
| ExtensionPointBuffer (p : PROCESS_MITIGATION_EXTENSION_POINT_DISABLE_POLICY)
| SignatureBuffer (p : PROCESS_MITIGATION_BINARY_SIGNATURE_POLICY)
| ImageLoadBuffer (p : PROCESS_MITIGATION_IMAGE_LOAD_POLICY).

Definition policy_of_buffer (b : PolicyBuffer) : PROCESS_MITIGATION_POLICY :=
  match b with
  | AslrBuffer _ => ProcessASLRPolicy
  | DynamicCodeBuffer _ => ProcessDynamicCodePolicy
  | StrictHandleBuffer _ => ProcessStrictHandleCheckPolicy
  | ExtensionPointBuffer _ => ProcessExtensionPointDisablePolicy
  | SignatureBuffer _ => ProcessSignaturePolicy
  | ImageLoadBuffer _ => ProcessImageLoadPolicy
  end.

(** The fields of [SHELLEXECUTEINFO] the facade fills in. *)
Record SHELLEXECUTEINFO := {
  fMask : DWORD;
  lpVerb : wstring;
  lpFile : wstring;
  nShow : Z;
  lpClass : wstring
}.

(** The state a failed shell launch hands to its detached recovery thread:
    the captured target and the captured last-error value. *)
Record RecoveryPrompt := {
  prompt_target : wstring;
  prompt_err : DWORD
}.

(** ** Traces and oracles *)

Inductive Event :=
| EvQueryFullProcessImageName (nSize : DWORD) (r : ApiResult wstring)
| EvVerifyVersionInfo (info : OSVERSIONINFOEX) (typeMask : DWORD)
    (conditions : list (DWORD * Z)) (r : ApiResult unit)
| EvGetFileAttributes (path : wstring) (r : ApiResult DWORD)
| EvGetProcessMitigationPolicy (policy : PROCESS_MITIGATION_POLICY)
    (r : ApiResult PROCESS_MITIGATION_ASLR_POLICY)
| EvSetProcessMitigationPolicy (buffer : PolicyBuffer) (r : ApiResult unit)
| EvGetVolumePathName (path : wstring) (cch : DWORD) (r : ApiResult wstring)
| EvGetDriveType (root : wstring) (r : UINT)
| EvOpenClipboard (r : ApiResult unit)
| EvCloseClipboard
| EvEmptyClipboard (r : ApiResult unit)
| EvGlobalAlloc (count : nat) (r : ApiResult HGLOBAL)
| EvGlobalLock (h : HGLOBAL) (r : ApiResult unit)
| EvGlobalUnlock (h : HGLOBAL)
| EvGlobalFree (h : HGLOBAL)
| EvSetClipboardData (format : UINT) (h : option HGLOBAL) (r : ApiResult unit)
| EvShellExecuteEx (info : SHELLEXECUTEINFO) (r : ApiResult unit)
| EvThreadDetach (p : RecoveryPrompt)
| EvErrorHandle (hr : HRESULT) (level : Level) (message : string).

(** What Windows answers.  Every entry point sees the whole history, so an
    oracle can describe any deterministic behaviour of the system, among
    them answers that change from one call to the next. *)
Record Oracle := {
  os_QueryFullProcessImageName : list Event -> DWORD -> ApiResult wstring;
  os_VerifyVersionInfo :
    list Event -> OSVERSIONINFOEX -> DWORD -> list (DWORD * Z) -> ApiResult unit;
  os_GetFileAttributes : list Event -> wstring -> ApiResult DWORD;
  os_GetProcessMitigationPolicy :
    list Event -> PROCESS_MITIGATION_POLICY -> ApiResult PROCESS_MITIGATION_ASLR_POLICY;
  os_SetProcessMitigationPolicy : list Event -> PolicyBuffer -> ApiResult unit;
  os_GetVolumePathName : list Event -> wstring -> DWORD -> ApiResult wstring;
  os_GetDriveType : list Event -> wstring -> UINT;
  os_OpenClipboard : list Event -> ApiResult unit;
  os_EmptyClipboard : list Event -> ApiResult unit;
  os_GlobalAlloc : list Event -> nat -> ApiResult HGLOBAL;
  os_GlobalLock : list Event -> HGLOBAL -> ApiResult unit;
  os_SetClipboardData : list Event -> UINT -> option HGLOBAL -> ApiResult unit;
  os_ShellExecuteEx : list Event -> SHELLEXECUTEINFO -> ApiResult unit
}.

Record World := {
  os : Oracle;
  trace : list Event;
  last_error : DWORD;
  m_ExeLocation : wstring;
  global_memory : list (HGLOBAL * wstring);
  clipboard : option (HGLOBAL * wstring)
}.

(** ** The state monad of the facade *)

Definition M (A : Type) : Type := World -> A * World.

Definition ret {A} (a : A) : M A := fun w => (a, w).

Definition bind {A B} (m : M A) (k : A -> M B) : M B :=
  fun w => k (fst (m w)) (snd (m w)).

Declare Scope win32_scope.
Delimit Scope win32_scope with win32.
Notation "x <- c ;; k" := (bind c (fun x => k))
  (at level 61, c at next level, right associativity) : win32_scope.
Notation "c ;; k" := (bind c (fun _ => k))
  (at level 61, right associativity) : win32_scope.
Local Open Scope win32_scope.

Definition record_event (e : Event) (w : World) : World :=
  {| os := os w; trace := trace w ++ [e]; last_error := last_error w;
     m_ExeLocation := m_ExeLocation w; global_memory := global_memory w;
     clipboard := clipboard w |}.

Definition set_last_error (e : DWORD) (w : World) : World :=
  {| os := os w; trace := trace w; last_error := e;
     m_ExeLocation := m_ExeLocation w; global_memory := global_memory w;
     clipboard := clipboard w |}.

Definition set_ExeLocation (s : wstring) (w : World) : World :=
  {| os := os w; trace := trace w; last_error := last_error w;
     m_ExeLocation := s; global_memory := global_memory w;
     clipboard := clipboard w |}.

Definition set_global_memory (g : list (HGLOBAL * wstring)) (w : World) : World :=
  {| os := os w; trace := trace w; last_error := last_error w;
     m_ExeLocation := m_ExeLocation w; global_memory := g;
     clipboard := clipboard w |}.

Definition set_clipboard (c : option (HGLOBAL * wstring)) (w : World) : World :=
  {| os := os w; trace := trace w; last_error := last_error w;
     m_ExeLocation := m_ExeLocation w; global_memory := global_memory w;
     clipboard := c |}.

(** A call of a Win32 entry point that can fail: ask the oracle, record the
    call and its answer, and on failure set the thread's last error. *)
Definition syscall {A} (ask : Oracle -> list Event -> ApiResult A)
    (ev : ApiResult A -> Event) : M (ApiResult A) :=
  fun w =>
    let r := ask (os w) (trace w) in
    (r, set_last_error (match r with Ok _ => last_error w | Fail e => e end)
          (record_event (ev r) w)).

Definition GetLastError : M DWORD := fun w => (last_error w, w).

(** Modelled from the spec: the macro [ErrorHandle] of ttberror.hpp, which is
    not part of the sources at hand.  The spec describes it as "a
    logging/error-reporting sink accepting (error code, severity,
    human-readable message)"; an invocation is recorded in the trace and
    control returns to the caller. *)
Definition ErrorHandle (hr : HRESULT) (level : Level) (message : string) : M unit :=
  fun w => (tt, record_event (EvErrorHandle hr level message) w).

(** Modelled from the spec: the macro [LastErrorHandle] of ttberror.hpp, the
    sink fed from the "last platform error" retrieval primitive "used when no
    explicit code is available". *)
Definition LastErrorHandle (level : Level) (message : string) : M unit :=
  error <- GetLastError ;;
  ErrorHandle (HRESULT_FROM_WIN32 error) level message.

Definition read_ExeLocation : M wstring := fun w => (m_ExeLocation w, w).
Definition write_ExeLocation (s : wstring) : M unit := fun w => (tt, set_ExeLocation s w).

(** ** Win32 entry points *)

Definition QueryFullProcessImageName (nSize : DWORD) : M (ApiResult wstring) :=
  syscall (fun o h => os_QueryFullProcessImageName o h nSize)
          (EvQueryFullProcessImageName nSize).

Definition VerifyVersionInfo (info : OSVERSIONINFOEX) (typeMask : DWORD)
    (conditions : list (DWORD * Z)) : M (ApiResult unit) :=
  syscall (fun o h => os_VerifyVersionInfo o h info typeMask conditions)
          (EvVerifyVersionInfo info typeMask conditions).

(** [GetFileAttributes] returns [INVALID_FILE_ATTRIBUTES] when it fails. *)
Definition GetFileAttributes (path : wstring) : M DWORD :=
  r <- syscall (fun o h => os_GetFileAttributes o h path) (EvGetFileAttributes path) ;;
  ret (match r with Ok attributes => attributes | Fail _ => INVALID_FILE_ATTRIBUTES end).

Definition GetProcessMitigationPolicy (policy : PROCESS_MITIGATION_POLICY)
  : M (ApiResult PROCESS_MITIGATION_ASLR_POLICY) :=
  syscall (fun o h => os_GetProcessMitigationPolicy o h policy)
          (EvGetProcessMitigationPolicy policy).

Definition SetProcessMitigationPolicy (buffer : PolicyBuffer) : M bool :=
  r <- syscall (fun o h => os_SetProcessMitigationPolicy o h buffer)
               (EvSetProcessMitigationPolicy buffer) ;;
  ret (succeeded r).

Definition GetVolumePathName (path : wstring) (cch : DWORD) : M (ApiResult wstring) :=
  syscall (fun o h => os_GetVolumePathName o h path cch) (EvGetVolumePathName path cch).

Definition GetDriveType (root : wstring) : M UINT :=
  fun w =>
    let r := os_GetDriveType (os w) (trace w) root in
    (r, record_event (EvGetDriveType root r) w).

Definition OpenClipboard : M bool :=
  r <- syscall os_OpenClipboard EvOpenClipboard ;; ret (succeeded r).

Definition CloseClipboard : M unit :=
  fun w => (tt, record_event EvCloseClipboard w).

Definition EmptyClipboard : M bool :=
  r <- syscall os_EmptyClipboard EvEmptyClipboard ;; ret (succeeded r).

Definition remove_block (h : HGLOBAL) (g : list (HGLOBAL * wstring))
  : list (HGLOBAL * wstring) :=
  filter (fun b => negb (fst b =? h)) g.

Definition find_block (h : HGLOBAL) (g : list (HGLOBAL * wstring)) : option wstring :=
  option_map snd (find (fun b => fst b =? h) g).

Definition is_live (h : HGLOBAL) (w : World) : bool :=
  existsb (fun b => fst b =? h) (global_memory w).

(** [GlobalAlloc] for [count] wide characters.  A new block belongs to the
    process until it is freed or handed to the clipboard.  The allocation
    flags are chosen in smart/autofree.hpp; the block is taken to be
    zero-filled, as the spec has it: copying the empty text "leaves the
    clipboard containing a single null terminator". *)
Definition GlobalAlloc (count : nat) : M (ApiResult HGLOBAL) :=
  r <- syscall (fun o h => os_GlobalAlloc o h count) (EvGlobalAlloc count) ;;
  fun w =>
    (r, set_global_memory
          (match r with
           | Ok h => (h, repeat 0 count) :: global_memory w
           | Fail _ => global_memory w
           end) w).

Definition GlobalLock (h : HGLOBAL) : M bool :=
  r <- syscall (fun o t => os_GlobalLock o t h) (EvGlobalLock h) ;; ret (succeeded r).

Definition GlobalUnlock (h : HGLOBAL) : M unit :=
  fun w => (tt, record_event (EvGlobalUnlock h) w).

Definition GlobalFree (h : HGLOBAL) : M unit :=
  fun w => (tt, set_global_memory (remove_block h (global_memory w))
                  (record_event (EvGlobalFree h) w)).

(** [text.copy(dest, text.length())] into the block [h]. *)
Definition copy_into (h : HGLOBAL) (text : wstring) : M unit :=
  fun w =>
    (tt, set_global_memory
           (map (fun b => if fst b =? h
                          then (fst b, text ++ skipn (List.length text) (snd b))
                          else b)
                (global_memory w)) w).

(** The block [h] leaves the memory of the process and becomes the content
    of the clipboard. *)
Definition hand_over (h : HGLOBAL) (w : World) : World :=
  set_clipboard
    (match find_block h (global_memory w) with
     | Some content => Some (h, content)
     | None => clipboard w
     end)
    (set_global_memory (remove_block h (global_memory w)) w).

(** When [SetClipboardData] succeeds the system owns the block. *)
Definition SetClipboardData (format : UINT) (hMem : option HGLOBAL) : M bool :=
  r <- syscall (fun o t => os_SetClipboardData o t format hMem)
               (EvSetClipboardData format hMem) ;;
  match r, hMem with
  | Ok _, Some h => fun w => (true, hand_over h w)
  | Ok _, None => ret true
  | Fail _, _ => ret false
  end.

Definition ShellExecuteEx (info : SHELLEXECUTEINFO) : M bool :=
  r <- syscall (fun o t => os_ShellExecuteEx o t info) (EvShellExecuteEx info) ;;
  ret (succeeded r).

(** [std::thread(...).detach()]: the recovery prompt runs on its own thread,
    outside the caller's control flow; the launch is recorded with what the
    closure captured. *)
Definition thread_detach (p : RecoveryPrompt) : M unit :=
  fun w => (tt, record_event (EvThreadDetach p) w).

(** ** Scope guards of the smart/ headers *)

(** Modelled from the spec: [ClipboardContext] of smart/clipboardcontext.hpp,
    which is not part of the sources at hand.  It is the "scoped exclusive
    lock" of the clipboard: the constructor opens the clipboard, the
    conversion to [bool] tells whether that worked, and leaving the scope
    closes what was opened ("each call performs its own
    open/empty/set-and-close cycle"). *)
Record ClipboardContext := { m_Opened : bool }.

Definition ClipboardContext_ctor : M ClipboardContext :=
  ok <- OpenClipboard ;; ret {| m_Opened := ok |}.

Definition ClipboardContext_dtor (context : ClipboardContext) : M unit :=
  if m_Opened context then CloseClipboard else ret tt.

(** Modelled from the spec: [AutoFree::GlobalHandle] of smart/autofree.hpp,
    which is not part of the sources at hand.  It owns "movable global
    memory sized to hold the text plus a terminating null character" and
    releases what it owns when its scope ends; an empty handle converts to
    [false]. *)
Record GlobalHandle := { m_DataPtr : option HGLOBAL }.

Definition GlobalHandle_Alloc (count : nat) : M GlobalHandle :=
  r <- GlobalAlloc count ;;
  ret {| m_DataPtr := match r with Ok h => Some h | Fail _ => None end |}.

Definition GlobalHandle_dtor (data : GlobalHandle) : M unit :=
  match m_DataPtr data with
  | Some h => GlobalFree h
  | None => ret tt
  end.

(** The usual meaning of [detach()] on an owning handle: give the raw handle
    out and own nothing afterwards. *)
Definition detach_release (data : GlobalHandle) : option HGLOBAL * GlobalHandle :=
  (m_DataPtr data, {| m_DataPtr := None |}).

(** Modelled from the spec: [AutoUnlock] of smart/autounlock.hpp, which is
    not part of the sources at hand: "a scoped lock on that memory,
    guaranteed to release on every exit path (including early failure)".
    The constructor takes the handle by reference and returns it here as it
    leaves it: the code tests [!data] right after the construction to learn
    that the lock was refused, so a refused lock leaves the handle empty. *)
Record AutoUnlock := { m_Locked : option HGLOBAL }.

Definition AutoUnlock_ctor (data : GlobalHandle) : M (AutoUnlock * GlobalHandle) :=
  match m_DataPtr data with
  | Some h =>
      ok <- GlobalLock h ;;
      ret (if ok
           then ({| m_Locked := Some h |}, data)
           else ({| m_Locked := None |}, {| m_DataPtr := None |}))
  | None => ret ({| m_Locked := None |}, data)
  end.

Definition AutoUnlock_dtor (lock : AutoUnlock) : M unit :=
  match m_Locked lock with
  | Some h => GlobalUnlock h
  | None => ret tt
  end.

Definition when (c : bool) (m : M unit) : M unit := if c then m else ret tt.

(** ** The facade *)

Section Facade.

(** [LONG_PATH] of constants.hpp, "the platform's long-path limit". *)
Variable LONG_PATH : DWORD.

(** What [data.detach()] of smart/autofree.hpp returns and what it leaves in
    the handle.  [detach_release] is its usual meaning. *)
Variable detach : GlobalHandle -> option HGLOBAL * GlobalHandle.

(** [win32::GetProcessFileName(GetCurrentProcess())].  An answer [Ok s] of
    the system stands for the buffer after [exeLocation.resize(exeLocation_size)]. *)
Definition GetProcessFileName : M (wstring * HRESULT) :=
  let exeLocation_size := LONG_PATH in
  r <- QueryFullProcessImageName exeLocation_size ;;
  match r with
  | Ok exeLocation => ret (exeLocation, S_OK)
  | Fail _ =>
      error <- GetLastError ;;
      ret ([], HRESULT_FROM_WIN32 error)
  end.

(** [win32::GetExeLocation] *)
Definition GetExeLocation : M wstring :=
  cached <- read_ExeLocation ;;
  when (wempty cached)
    (p <- GetProcessFileName ;;
     let loc := fst p in
     let hr := snd p in
     if SUCCEEDED hr
     then write_ExeLocation loc
     else ErrorHandle hr Fatal "Failed to determine executable location!") ;;
  read_ExeLocation.

(** [win32::IsAtLeastBuild] *)
Definition IsAtLeastBuild (buildNumber : DWORD) : M bool :=
  let versionInfo :=
    {| dwMajorVersion := 10; dwMinorVersion := 0; dwBuildNumber := buildNumber |} in
  let mask :=
    [ (VER_MAJORVERSION, VER_GREATER_EQUAL);
      (VER_MINORVERSION, VER_GREATER_EQUAL);
      (VER_BUILDNUMBER, VER_GREATER_EQUAL) ] in
  r <- VerifyVersionInfo versionInfo
         (Z.lor (Z.lor VER_MAJORVERSION VER_MINORVERSION) VER_BUILDNUMBER) mask ;;
  match r with
  | Ok _ => ret true
  | Fail _ =>
      error <- GetLastError ;;
      when (negb (error =? ERROR_OLD_WIN_VERSION))
        (ErrorHandle (HRESULT_FROM_WIN32 error) Log "Error obtaining version info.") ;;
      ret false
  end.

(** [win32::IsDirectory] *)
Definition IsDirectory (directory : wstring) : M bool :=
  attributes <- GetFileAttributes directory ;;
  if attributes =? INVALID_FILE_ATTRIBUTES
  then
    error <- GetLastError ;;
    when (negb (error =? ERROR_FILE_NOT_FOUND) && negb (error =? ERROR_PATH_NOT_FOUND))
      (ErrorHandle (HRESULT_FROM_WIN32 error) Debug
         "Failed to check if directory exists.") ;;
    ret false
  else ret (negb (Z.land attributes FILE_ATTRIBUTE_DIRECTORY =? 0)).

(** [win32::FileExists] *)
Definition FileExists (file : wstring) : M bool :=
  attributes <- GetFileAttributes file ;;
  if attributes =? INVALID_FILE_ATTRIBUTES
  then
    error <- GetLastError ;;
    when (negb (error =? ERROR_FILE_NOT_FOUND) && negb (error =? ERROR_PATH_NOT_FOUND))
      (ErrorHandle (HRESULT_FROM_WIN32 error) Log "Failed to check if file exists.") ;;
    ret false
  else ret (Z.land attributes FILE_ATTRIBUTE_DIRECTORY =? 0).

(** [win32::CopyToClipboard].  Each [return] runs the destructors of the
    scope guards alive at that point, the youngest first. *)
Definition CopyToClipboard (text : wstring) : M bool :=
  context <- ClipboardContext_ctor ;;
  if negb (m_Opened context)
  then
    LastErrorHandle Error "Failed to open clipboard." ;;
    ClipboardContext_dtor context ;;
    ret false
  else
    emptied <- EmptyClipboard ;;
    if negb emptied
    then
      LastErrorHandle Error "Failed to empty clipboard." ;;
      ClipboardContext_dtor context ;;
      ret false
    else
      data <- GlobalHandle_Alloc (List.length text + 1) ;;
      match m_DataPtr data with
      | None =>
          LastErrorHandle Error "Failed to allocate memory for the clipboard." ;;
          GlobalHandle_dtor data ;;
          ClipboardContext_dtor context ;;
          ret false
      | Some _ =>
          locked <- AutoUnlock_ctor data ;;
          let lock := fst locked in
          let data := snd locked in
          match m_DataPtr data with
          | None =>
              LastErrorHandle Error "Failed to lock memory for the clipboard." ;;
              AutoUnlock_dtor lock ;;
              GlobalHandle_dtor data ;;
              ClipboardContext_dtor context ;;
              ret false
          | Some h =>
              copy_into h text ;;
              AutoUnlock_dtor lock ;;
              let raw := fst (detach data) in
              let data := snd (detach data) in
              handed <- SetClipboardData CF_UNICODETEXT raw ;;
              if negb handed
              then
                LastErrorHandle Error "Failed to copy data to clipboard." ;;
                GlobalHandle_dtor data ;;
                ClipboardContext_dtor context ;;
                ret false
              else
                GlobalHandle_dtor data ;;
                ClipboardContext_dtor context ;;
                ret true
          end
      end.

(** [win32::OpenLink].  [link[4]] is read before anything else happens; a
    read past the end of the string is undefined behaviour, [None]. *)
Definition OpenLink (link : wstring) (w : World) : option (unit * World) :=
  match wstring_at link 4 with
  | None => None
  | Some c =>
      Some
        ((let info :=
            {| fMask := SEE_MASK_CLASSNAME;
               lpVerb := L "open";
               lpFile := link;
               nShow := SW_SHOW;
               lpClass := if c =? wchar_of_ascii "s" then L "https" else L "http" |} in
          launched <- ShellExecuteEx info ;;
          if negb launched
          then
            err <- GetLastError ;;
            thread_detach {| prompt_target := link; prompt_err := err |}
          else ret tt) w)
  end.

(** [win32::HardenProcess] *)
Definition HardenProcess : M unit :=
  queried <- GetProcessMitigationPolicy ProcessASLRPolicy ;;
  match queried with
  | Ok aslr_policy =>
      let aslr_policy :=
        {| EnableBottomUpRandomization := EnableBottomUpRandomization aslr_policy;
           EnableForceRelocateImages := true;
           EnableHighEntropy := EnableHighEntropy aslr_policy;
           DisallowStrippedImages := true |} in
      installed <- SetProcessMitigationPolicy (AslrBuffer aslr_policy) ;;
      when (negb installed)
        (LastErrorHandle Log "Couldn't disallow stripped images.")
  | Fail _ => LastErrorHandle Log "Couldn't get current ASLR policy."
  end ;;

  let code_policy :=
    {| ProhibitDynamicCode := true;
       AllowThreadOptOut := false;
       AllowRemoteDowngrade := false |} in
  installed <- SetProcessMitigationPolicy (DynamicCodeBuffer code_policy) ;;
  when (negb installed)
    (LastErrorHandle Log "Couldn't disable dynamic code generation.") ;;

  let handle_policy :=
    {| RaiseExceptionOnInvalidHandleReference := true;
       HandleExceptionsPermanentlyEnabled := true |} in
  installed <- SetProcessMitigationPolicy (StrictHandleBuffer handle_policy) ;;
  when (negb installed)
    (LastErrorHandle Log "Couldn't enable strict handle checks.") ;;

  let extension_policy := {| DisableExtensionPoints := true |} in
  installed <- SetProcessMitigationPolicy (ExtensionPointBuffer extension_policy) ;;
  when (negb installed)
    (LastErrorHandle Log "Couldn't disable extension point DLLs.") ;;

  let signature_policy :=
    {| MicrosoftSignedOnly := false;
       StoreSignedOnly := false;
       MitigationOptIn := true |} in
  installed <- SetProcessMitigationPolicy (SignatureBuffer signature_policy) ;;
  when (negb installed)
    (LastErrorHandle Log "Couldn't enable image signature enforcement.") ;;

  exe <- GetExeLocation ;;
  resolved <- GetVolumePathName exe LONG_PATH ;;
  NoRemoteImages_field <-
    match resolved with
    | Ok volumePath =>
        drive <- GetDriveType volumePath ;;
        ret (negb (drive =? DRIVE_REMOTE))
    | Fail _ =>
        LastErrorHandle Log "Unable to get volume path name." ;;
        ret false
    end ;;
  let load_policy :=
    {| NoRemoteImages := NoRemoteImages_field;
       NoLowMandatoryLabelImages := true;
       PreferSystem32Images := true |} in
  installed <- SetProcessMitigationPolicy (ImageLoadBuffer load_policy) ;;
  when (negb installed)
    (LastErrorHandle Log "Couldn't set image load policy.").

(** ** Sequences of facade calls *)

Inductive Op :=
| OpGetExeLocation
| OpIsAtLeastBuild (buildNumber : DWORD)
| OpIsDirectory (directory : wstring)
| OpFileExists (file : wstring)
| OpCopyToClipboard (text : wstring)
| OpOpenLink (link : wstring)
| OpHardenProcess.

(** One call of the facade; [None] after undefined behaviour. *)
Definition run_op (o : Op) (w : World) : option World :=
  match o with
  | OpGetExeLocation => Some (snd (GetExeLocation w))
  | OpIsAtLeastBuild b => Some (snd (IsAtLeastBuild b w))
  | OpIsDirectory d => Some (snd (IsDirectory d w))
  | OpFileExists f => Some (snd (FileExists f w))
  | OpCopyToClipboard t => Some (snd (CopyToClipboard t w))
  | OpOpenLink l => option_map snd (OpenLink l w)
  | OpHardenProcess => Some (snd (HardenProcess w))
  end.

Fixpoint run_ops (ops : list Op) (w : World) : option World :=
  match ops with
  | [] => Some w
  | o :: rest =>
      match run_op o w with
      | Some w' => run_ops rest w'
      | None => None
      end
  end.

End Facade.

(** ** Observations on traces *)

(** The calls of the error sink, in order. *)
Fixpoint sink_calls (evs : list Event) : list (HRESULT * Level * string) :=
  match evs with
  | [] => []
  | EvErrorHandle hr level message :: rest => (hr, level, message) :: sink_calls rest
  | _ :: rest => sink_calls rest
  end.

Definition sink_levels (evs : list Event) : list Level :=
  map (fun c => snd (fst c)) (sink_calls evs).

(** What happened between two worlds of one run. *)
Definition new_events (before after : World) : list Event :=
  skipn (List.length (trace before)) (trace after).

Definition not_found (e : DWORD) : bool :=
  (e =? ERROR_FILE_NOT_FOUND) || (e =? ERROR_PATH_NOT_FOUND).

(** The version check [IsAtLeastBuild] asks the system for. *)
Definition version_check (buildNumber : DWORD) (w : World) : ApiResult unit :=
  os_VerifyVersionInfo (os w) (trace w)
    {| dwMajorVersion := 10; dwMinorVersion := 0; dwBuildNumber := buildNumber |}
    (Z.lor (Z.lor VER_MAJORVERSION VER_MINORVERSION) VER_BUILDNUMBER)
    [ (VER_MAJORVERSION, VER_GREATER_EQUAL);
      (VER_MINORVERSION, VER_GREATER_EQUAL);
      (VER_BUILDNUMBER, VER_GREATER_EQUAL) ].

(** The class names handed to the shell, in order. *)
Fixpoint shell_classes (evs : list Event) : list wstring :=
  match evs with
  | [] => []
  | EvShellExecuteEx info _ :: rest => lpClass info :: shell_classes rest
  | _ :: rest => shell_classes rest
  end.

(** The image-path query [GetExeLocation] would send in world [w]. *)
Definition image_query (LONG_PATH : DWORD) (w : World) : ApiResult wstring :=
  os_QueryFullProcessImageName (os w) (trace w) LONG_PATH.

(** ** Observations on a hardening run *)

Definition Policy_eqb (a b : PROCESS_MITIGATION_POLICY) : bool :=
  match a, b with
  | ProcessASLRPolicy, ProcessASLRPolicy
  | ProcessDynamicCodePolicy, ProcessDynamicCodePolicy
  | ProcessStrictHandleCheckPolicy, ProcessStrictHandleCheckPolicy
  | ProcessExtensionPointDisablePolicy, ProcessExtensionPointDisablePolicy
  | ProcessSignaturePolicy, ProcessSignaturePolicy
  | ProcessImageLoadPolicy, ProcessImageLoadPolicy => true
  | _, _ => false
  end.

(** The policy a mitigation call is about. *)
Definition policy_of_event (e : Event) : option PROCESS_MITIGATION_POLICY :=
  match e with
  | EvGetProcessMitigationPolicy p _ => Some p
  | EvSetProcessMitigationPolicy b _ => Some (policy_of_buffer b)
  | _ => None
  end.

Fixpoint policies_touched (evs : list Event) : list PROCESS_MITIGATION_POLICY :=
  match evs with
  | [] => []
  | e :: rest =>
      match policy_of_event e with
      | Some p => p :: policies_touched rest
      | None => policies_touched rest
      end
  end.

(** Drop an element that repeats its predecessor. *)
Fixpoint squeeze (l : list PROCESS_MITIGATION_POLICY) : list PROCESS_MITIGATION_POLICY :=
  match l with
  | [] => []
  | p :: rest =>
      match rest with
      | q :: _ => if Policy_eqb p q then squeeze rest else p :: squeeze rest
      | [] => [p]
      end
  end.

(** The policy steps of a run, in order: a step is a run of consecutive
    mitigation calls about one policy. *)
Definition steps_run (evs : list Event) : list PROCESS_MITIGATION_POLICY :=
  squeeze (policies_touched evs).

(** The buffers handed to [SetProcessMitigationPolicy], in order. *)
Fixpoint installs (evs : list Event) : list PolicyBuffer :=
  match evs with
  | [] => []
  | EvSetProcessMitigationPolicy b _ :: rest => b :: installs rest
  | _ :: rest => installs rest
  end.

(** The error code of a failed mitigation query or install. *)
Definition mitigation_failure (e : Event) : option DWORD :=
  match e with
  | EvGetProcessMitigationPolicy _ (Fail err) => Some err
  | EvSetProcessMitigationPolicy _ (Fail err) => Some err
  | _ => None
  end.

Definition query_failed (evs : list Event) : bool :=
  existsb (fun e => match e with
                    | EvGetProcessMitigationPolicy _ (Fail _) => true
                    | _ => false
                    end) evs.

(** Every failed mitigation call is followed at once by a call of the sink
    at [Log] severity that carries its error code. *)
Fixpoint failures_logged (evs : list Event) : Prop :=
  match evs with
  | [] => True
  | e :: rest =>
      match mitigation_failure e with
      | Some err =>
          exists message rest',
            rest = EvErrorHandle (HRESULT_FROM_WIN32 err) Log message :: rest'
      | None => True
      end /\ failures_logged rest
  end.

Definition six_steps : list PROCESS_MITIGATION_POLICY :=
  [ ProcessASLRPolicy; ProcessDynamicCodePolicy; ProcessStrictHandleCheckPolicy;
    ProcessExtensionPointDisablePolicy; ProcessSignaturePolicy; ProcessImageLoadPolicy ].

(** A sink call [HardenProcess] may make: one at [Log] severity, or the
    [Fatal] one of [GetExeLocation]. *)
Definition hardening_sink_call (c : HRESULT * Level * string) : Prop :=
  snd (fst c) = Log \/
  (snd (fst c) = Fatal /\ snd c = "Failed to determine executable location!"%string).

(** A stretch of events that logs its own failures, whatever follows. *)
Definition self_logged (evs : list Event) : Prop :=
  forall tail, failures_logged tail -> failures_logged (evs ++ tail).

(** What a stretch of a hardening run amounts to. *)
Definition summary (touched : list PROCESS_MITIGATION_POLICY)
    (buffers : list PolicyBuffer) (failed_query : bool) (evs : list Event) : Prop :=
  policies_touched evs = touched /\
  installs evs = buffers /\
  query_failed evs = failed_query /\
  self_logged evs /\
  Forall hardening_sink_call (sink_calls evs).

(** ** The blocks of [HardenProcess] and the traces they leave *)

(** Install one policy and log a refusal: the pattern every block of
    [HardenProcess] ends with. *)
Definition install (buffer : PolicyBuffer) (message : string) : M unit :=
  installed <- SetProcessMitigationPolicy buffer ;;
  when (negb installed) (LastErrorHandle Log message).

Definition aslr_step : M unit :=
  queried <- GetProcessMitigationPolicy ProcessASLRPolicy ;;
  match queried with
  | Ok aslr_policy =>
      install
        (AslrBuffer
           {| EnableBottomUpRandomization := EnableBottomUpRandomization aslr_policy;
              EnableForceRelocateImages := true;
              EnableHighEntropy := EnableHighEntropy aslr_policy;
              DisallowStrippedImages := true |})
        "Couldn't disallow stripped images."
  | Fail _ => LastErrorHandle Log "Couldn't get current ASLR policy."
  end.

Definition dynamic_code_buffer : PolicyBuffer :=
  DynamicCodeBuffer
    {| ProhibitDynamicCode := true; AllowThreadOptOut := false;
       AllowRemoteDowngrade := false |}.

Definition strict_handle_buffer : PolicyBuffer :=
  StrictHandleBuffer
    {| RaiseExceptionOnInvalidHandleReference := true;
       HandleExceptionsPermanentlyEnabled := true |}.

Definition extension_point_buffer : PolicyBuffer :=
  ExtensionPointBuffer {| DisableExtensionPoints := true |}.

Definition signature_buffer : PolicyBuffer :=
  SignatureBuffer
    {| MicrosoftSignedOnly := false; StoreSignedOnly := false; MitigationOptIn := true |}.

Definition image_load_buffer (noRemoteImages : bool) : PolicyBuffer :=
  ImageLoadBuffer
    {| NoRemoteImages := noRemoteImages;
       NoLowMandatoryLabelImages := true;
       PreferSystem32Images := true |}.

Definition image_load_step (LONG_PATH : DWORD) : M unit :=
  exe <- GetExeLocation LONG_PATH ;;
  resolved <- GetVolumePathName exe LONG_PATH ;;
  NoRemoteImages_field <-
    match resolved with
    | Ok volumePath =>
        drive <- GetDriveType volumePath ;;
        ret (negb (drive =? DRIVE_REMOTE))
    | Fail _ =>
        LastErrorHandle Log "Unable to get volume path name." ;;
        ret false
    end ;;
  install (image_load_buffer NoRemoteImages_field) "Couldn't set image load policy.".

(** What a block leaves in the trace, given the answers of the system. *)
Definition install_trace (buffer : PolicyBuffer) (message : string)
    (r : ApiResult unit) : list Event :=
  EvSetProcessMitigationPolicy buffer r ::
  match r with
  | Ok _ => []
  | Fail e => [EvErrorHandle (HRESULT_FROM_WIN32 e) Log message]
  end.

Definition aslr_trace (queried : ApiResult PROCESS_MITIGATION_ASLR_POLICY)
    (r : ApiResult unit) : list Event :=
  EvGetProcessMitigationPolicy ProcessASLRPolicy queried ::
  match queried with
  | Ok aslr_policy =>
      install_trace
        (AslrBuffer
           {| EnableBottomUpRandomization := EnableBottomUpRandomization aslr_policy;
              EnableForceRelocateImages := true;
              EnableHighEntropy := EnableHighEntropy aslr_policy;
              DisallowStrippedImages := true |})
        "Couldn't disallow stripped images." r
  | Fail e =>
      [EvErrorHandle (HRESULT_FROM_WIN32 e) Log "Couldn't get current ASLR policy."]
  end.

(** The remote-image restriction the image-load block asks for. *)
Definition remote_restriction (resolved : ApiResult wstring) (drive : UINT) : bool :=
  match resolved with
  | Ok _ => negb (drive =? DRIVE_REMOTE)
  | Fail _ => false
  end.

(** The events of the image-load block from the volume query on. *)
Definition image_load_trace (LONG_PATH : DWORD) (exe : wstring)
    (resolved : ApiResult wstring) (drive : UINT) (r : ApiResult unit) : list Event :=
  EvGetVolumePathName exe LONG_PATH resolved ::
  match resolved with
  | Ok volumePath => EvGetDriveType volumePath drive
  | Fail e => EvErrorHandle (HRESULT_FROM_WIN32 e) Log "Unable to get volume path name."
  end ::
  install_trace (image_load_buffer (remote_restriction resolved drive))
    "Couldn't set image load policy." r.

(** The events of one [GetExeLocation]. *)
Inductive exe_location_events (LONG_PATH : DWORD) : list Event -> Prop :=
| exe_cached : exe_location_events LONG_PATH []
| exe_queried r :
    exe_location_events LONG_PATH [EvQueryFullProcessImageName LONG_PATH r]
| exe_fatal e :
    exe_location_events LONG_PATH
      [ EvQueryFullProcessImageName LONG_PATH (Fail e);
        EvErrorHandle (HRESULT_FROM_WIN32 e) Fatal
          "Failed to determine executable location!" ].

(** The events of a whole [HardenProcess], given the answers of the system. *)
Definition harden_trace (LONG_PATH : DWORD)
    (queried : ApiResult PROCESS_MITIGATION_ASLR_POLICY)
    (r1 r2 r3 r4 r5 : ApiResult unit) (exe_events : list Event) (exe : wstring)
    (resolved : ApiResult wstring) (drive : UINT) (r6 : ApiResult unit) : list Event :=
  aslr_trace queried r1 ++
  install_trace dynamic_code_buffer "Couldn't disable dynamic code generation." r2 ++
  install_trace strict_handle_buffer "Couldn't enable strict handle checks." r3 ++
  install_trace extension_point_buffer "Couldn't disable extension point DLLs." r4 ++
  install_trace signature_buffer "Couldn't enable image signature enforcement." r5 ++
  exe_events ++
  image_load_trace LONG_PATH exe resolved drive r6.








(** ** Computations that respect the cache *)

(** A computation that never touches a filled cache. *)
Definition guards_cache {A} (m : M A) : Prop :=
  forall w, wempty (m_ExeLocation w) = false ->
            m_ExeLocation (snd (m w)) = m_ExeLocation w.

(** ** Sample systems *)

(** A system on which every call succeeds: the executable sits on a fixed
    local drive and every path is a plain file. *)
Definition obliging : Oracle :=
  {| os_QueryFullProcessImageName := fun _ _ => Ok (L "C:\TranslucentTB.exe");
     os_VerifyVersionInfo := fun _ _ _ _ => Ok tt;
     os_GetFileAttributes := fun _ _ => Ok 32;
     os_GetProcessMitigationPolicy := fun _ _ =>
       Ok {| EnableBottomUpRandomization := true;
             EnableForceRelocateImages := false;
             EnableHighEntropy := true;
             DisallowStrippedImages := false |};
     os_SetProcessMitigationPolicy := fun _ _ => Ok tt;
     os_GetVolumePathName := fun _ _ _ => Ok (L "C:\");
     os_GetDriveType := fun _ _ => 3;
     os_OpenClipboard := fun _ => Ok tt;
     os_EmptyClipboard := fun _ => Ok tt;
     os_GlobalAlloc := fun _ _ => Ok 4096;
     os_GlobalLock := fun _ _ => Ok tt;
     os_SetClipboardData := fun _ _ _ => Ok tt;
     os_ShellExecuteEx := fun _ _ => Ok tt |}.

Definition with_QueryFullProcessImageName
    (f : list Event -> DWORD -> ApiResult wstring) (o : Oracle) : Oracle :=
  {| os_QueryFullProcessImageName := f;
     os_VerifyVersionInfo := os_VerifyVersionInfo o;
     os_GetFileAttributes := os_GetFileAttributes o;
     os_GetProcessMitigationPolicy := os_GetProcessMitigationPolicy o;
     os_SetProcessMitigationPolicy := os_SetProcessMitigationPolicy o;
     os_GetVolumePathName := os_GetVolumePathName o;
     os_GetDriveType := os_GetDriveType o;
     os_OpenClipboard := os_OpenClipboard o;
     os_EmptyClipboard := os_EmptyClipboard o;
     os_GlobalAlloc := os_GlobalAlloc o;
     os_GlobalLock := os_GlobalLock o;
     os_SetClipboardData := os_SetClipboardData o;
     os_ShellExecuteEx := os_ShellExecuteEx o |}.

Definition with_GetFileAttributes
    (f : list Event -> wstring -> ApiResult DWORD) (o : Oracle) : Oracle :=
  {| os_QueryFullProcessImageName := os_QueryFullProcessImageName o;
     os_VerifyVersionInfo := os_VerifyVersionInfo o;
     os_GetFileAttributes := f;
     os_GetProcessMitigationPolicy := os_GetProcessMitigationPolicy o;
     os_SetProcessMitigationPolicy := os_SetProcessMitigationPolicy o;
     os_GetVolumePathName := os_GetVolumePathName o;
     os_GetDriveType := os_GetDriveType o;
     os_OpenClipboard := os_OpenClipboard o;
     os_EmptyClipboard := os_EmptyClipboard o;
     os_GlobalAlloc := os_GlobalAlloc o;
     os_GlobalLock := os_GlobalLock o;
     os_SetClipboardData := os_SetClipboardData o;
     os_ShellExecuteEx := os_ShellExecuteEx o |}.

Definition with_SetClipboardData
    (f : list Event -> UINT -> option HGLOBAL -> ApiResult unit) (o : Oracle) : Oracle :=
  {| os_QueryFullProcessImageName := os_QueryFullProcessImageName o;
     os_VerifyVersionInfo := os_VerifyVersionInfo o;
     os_GetFileAttributes := os_GetFileAttributes o;
     os_GetProcessMitigationPolicy := os_GetProcessMitigationPolicy o;
     os_SetProcessMitigationPolicy := os_SetProcessMitigationPolicy o;
     os_GetVolumePathName := os_GetVolumePathName o;
     os_GetDriveType := os_GetDriveType o;
     os_OpenClipboard := os_OpenClipboard o;
     os_EmptyClipboard := os_EmptyClipboard o;
     os_GlobalAlloc := os_GlobalAlloc o;
     os_GlobalLock := os_GlobalLock o;
     os_SetClipboardData := f;
     os_ShellExecuteEx := os_ShellExecuteEx o |}.

(** The world of a process that has just started on system [o]. *)
Definition boot (o : Oracle) : World :=
  {| os := o; trace := []; last_error := 0; m_ExeLocation := [];
     global_memory := []; clipboard := None |}.

(** A system whose first image-path query is refused ([ERROR_ACCESS_DENIED])
    and whose later ones succeed. *)
Definition flaky_image_query : Oracle :=
  with_QueryFullProcessImageName
    (fun history _ =>
       match history with
       | [] => Fail 5
       | _ :: _ => Ok (L "C:\TranslucentTB.exe")
       end)
    obliging.

(** A system that refuses every attribute query ([ERROR_ACCESS_DENIED]). *)
Definition locked_files : Oracle :=
  with_GetFileAttributes (fun _ _ => Fail 5) obliging.

(** A system on which every path is a directory. *)
Definition only_directories : Oracle :=
  with_GetFileAttributes (fun _ _ => Ok FILE_ATTRIBUTE_DIRECTORY) obliging.

(** A system whose clipboard refuses the data ([ERROR_CLIPBOARD_NOT_OPEN]). *)
Definition stubborn_clipboard : Oracle :=
  with_SetClipboardData (fun _ _ _ => Fail 1418) obliging.


(** The long-path limit used in the examples. *)
Definition sample_LONG_PATH : DWORD := 32767.

(** * The rest of the facade *)

(** ** The launchers of files and folders *)

(** [win32::EditFile] *)
Definition EditFile (file : wstring) : M unit :=
  let info :=
    {| fMask := SEE_MASK_CLASSNAME;
       lpVerb := L "open";
       lpFile := file;
       nShow := SW_SHOW;
       lpClass := L "txtfile" |} in
  launched <- ShellExecuteEx info ;;
  if negb launched
  then
    err <- GetLastError ;;
    thread_detach {| prompt_target := file; prompt_err := err |}
  else ret tt.

(** [win32::OpenFolder] *)
Definition OpenFolder (folder : wstring) : M unit :=
  let info :=
    {| fMask := SEE_MASK_CLASSNAME;
       lpVerb := L "open";
       lpFile := folder;
       nShow := SW_SHOW;
       lpClass := L "folder" |} in
  launched <- ShellExecuteEx info ;;
  if negb launched
  then
    err <- GetLastError ;;
    thread_detach {| prompt_target := folder; prompt_err := err |}
  else ret tt.

(** The recovery threads a stretch of events detached, in order. *)
Fixpoint threads_detached (evs : list Event) : list RecoveryPrompt :=
  match evs with
  | [] => []
  | EvThreadDetach p :: rest => p :: threads_detached rest
  | _ :: rest => threads_detached rest
  end.

(** The structures handed to the shell, in order. *)
Fixpoint shell_launches (evs : list Event) : list SHELLEXECUTEINFO :=
  match evs with
  | [] => []
  | EvShellExecuteEx info _ :: rest => info :: shell_launches rest
  | _ :: rest => shell_launches rest
  end.

(** ** Observations on a clipboard transfer *)

(** The locking discipline of a stretch of events, given the blocks locked
    before it: only a locked block is unlocked, no block is freed or handed
    to the clipboard while a lock is held, and no lock is left at the end. *)
Fixpoint lock_discipline (held : list HGLOBAL) (evs : list Event) : bool :=
  match evs with
  | [] => match held with [] => true | _ :: _ => false end
  | EvGlobalLock h (Ok _) :: rest => lock_discipline (h :: held) rest
  | EvGlobalUnlock h :: rest =>
      existsb (fun k => k =? h) held &&
      lock_discipline (filter (fun k => negb (k =? h)) held) rest
  | EvGlobalFree _ :: rest
  | EvSetClipboardData _ _ _ :: rest =>
      match held with [] => lock_discipline held rest | _ :: _ => false end
  | _ :: rest => lock_discipline held rest
  end.

(** A call of the clipboard family that the system refused. *)
Definition refused (e : Event) : bool :=
  match e with
  | EvOpenClipboard (Fail _)
  | EvEmptyClipboard (Fail _)
  | EvGlobalAlloc _ (Fail _)
  | EvGlobalLock _ (Fail _)
  | EvSetClipboardData _ _ (Fail _) => true
  | _ => false
  end.

Definition is_image_query (e : Event) : bool :=
  match e with EvQueryFullProcessImageName _ _ => true | _ => false end.

Definition is_CloseClipboard (e : Event) : bool :=
  match e with EvCloseClipboard => true | _ => false end.

(** ** Entry points outside the clipboard, shell and mitigation families *)

(** winnt.h, WinUser.h, PathCch.h *)
Definition PROCESSOR_ARCHITECTURE_INTEL : Z := 0.
Definition PROCESSOR_ARCHITECTURE_ARM : Z := 5.
Definition PROCESSOR_ARCHITECTURE_IA64 : Z := 6.
Definition PROCESSOR_ARCHITECTURE_AMD64 : Z := 9.
Definition PROCESSOR_ARCHITECTURE_ARM64 : Z := 12.
Definition PROCESSOR_ARCHITECTURE_UNKNOWN : Z := 65535.
Definition IDYES : Z := 6.
Definition MB_YESNO : UINT := 4.
Definition MB_ICONWARNING : UINT := 48.
Definition MB_SETFOREGROUND : UINT := 65536.
Definition PATHCCH_ALLOW_LONG_PATHS : DWORD := 1.

(** The raw content of a version-information block. *)
Definition VersionBlock := list Z.

(** Calls of the version, system-information and dialog entry points, with
    their answers.  An [HRESULT]-returning entry point answers with its
    result and the pointer it stored ([None] is the null pointer);
    [VerQueryValue] answers with the memory its pointer leads to and the
    length it reports. *)
Inductive XEvent :=
| XGetNativeSystemInfo (wProcessorArchitecture : Z)
| XSHGetKnownFolderPath (hr : HRESULT) (path : option wstring)
| XPathAllocCombine (pathIn : option wstring) (more : wstring) (flags : DWORD)
    (hr : HRESULT) (path : option wstring)
| XCoTaskMemFree (path : wstring)
| XLocalFree (path : wstring)
| XGetFileVersionInfoSize (file : wstring) (r : ApiResult (DWORD * DWORD))
| XGetFileVersionInfo (file : wstring) (handle size : DWORD)
    (r : ApiResult VersionBlock)
| XVerQueryValue (block : VersionBlock) (subBlock : wstring)
    (r : ApiResult (wstring * DWORD))
| XMessageBox (text caption : wstring) (uType : UINT) (answer : Z).

(** What Windows answers at these entry points, given everything that
    happened before on both traces. *)
Record XOracle := {
  xos_GetNativeSystemInfo : list Event -> list XEvent -> Z;
  xos_SHGetKnownFolderPath : list Event -> list XEvent -> HRESULT * option wstring;
  xos_PathAllocCombine :
    list Event -> list XEvent -> option wstring -> wstring -> DWORD ->
    HRESULT * option wstring;
  xos_GetFileVersionInfoSize :
    list Event -> list XEvent -> wstring -> ApiResult (DWORD * DWORD);
  xos_GetFileVersionInfo :
    list Event -> list XEvent -> wstring -> DWORD -> DWORD -> ApiResult VersionBlock;
  xos_VerQueryValue :
    list Event -> list XEvent -> VersionBlock -> wstring -> ApiResult (wstring * DWORD);
  xos_MessageBox : list Event -> list XEvent -> wstring -> wstring -> UINT -> Z
}.

(** The world of the clipboard, shell and mitigation calls, extended with
    the second family of entry points and their trace. *)
Record XWorld := {
  base : World;
  xos : XOracle;
  xtrace : list XEvent
}.

(** State passing over [XWorld]; [None] is undefined behaviour. *)
Definition XM (A : Type) : Type := XWorld -> option (A * XWorld).

Definition xret {A} (a : A) : XM A := fun x => Some (a, x).

Definition xbind {A B} (m : XM A) (k : A -> XM B) : XM B :=
  fun x =>
    match m x with
    | Some (a, x') => k a x'
    | None => None
    end.

Definition undefined {A} : XM A := fun _ => None.

Declare Scope xwin32_scope.
Notation "x <- c ;; k" := (xbind c (fun x => k))
  (at level 61, c at next level, right associativity) : xwin32_scope.
Notation "c ;; k" := (xbind c (fun _ => k))
  (at level 61, right associativity) : xwin32_scope.

(** A computation of the first family, run inside the extended world. *)
Definition lift {A} (m : M A) : XM A :=
  fun x =>
    Some (fst (m (base x)),
          {| base := snd (m (base x)); xos := xos x; xtrace := xtrace x |}).

Definition xrecord (e : XEvent) (x : XWorld) : XWorld :=
  {| base := base x; xos := xos x; xtrace := xtrace x ++ [e] |}.

(** A call that can fail and then leaves a last-error value. *)
Definition xsyscall {A} (ask : XOracle -> list Event -> list XEvent -> ApiResult A)
    (ev : ApiResult A -> XEvent) : XM (ApiResult A) :=
  fun x =>
    let r := ask (xos x) (trace (base x)) (xtrace x) in
    Some (r,
          {| base := set_last_error
                       (match r with Ok _ => last_error (base x) | Fail e => e end)
                       (base x);
             xos := xos x;
             xtrace := xtrace x ++ [ev r] |}).

(** A call that answers without touching the last-error value. *)
Definition xcall {A} (ask : XOracle -> list Event -> list XEvent -> A)
    (ev : A -> XEvent) : XM A :=
  fun x =>
    let r := ask (xos x) (trace (base x)) (xtrace x) in
    Some (r, xrecord (ev r) x).

Local Open Scope xwin32_scope.

Definition GetNativeSystemInfo : XM Z :=
  xcall xos_GetNativeSystemInfo XGetNativeSystemInfo.

Definition SHGetKnownFolderPath : XM (HRESULT * option wstring) :=
  xcall xos_SHGetKnownFolderPath (fun r => XSHGetKnownFolderPath (fst r) (snd r)).

Definition PathAllocCombine (pathIn : option wstring) (more : wstring) (flags : DWORD)
  : XM (HRESULT * option wstring) :=
  xcall (fun o t u => xos_PathAllocCombine o t u pathIn more flags)
        (fun r => XPathAllocCombine pathIn more flags (fst r) (snd r)).

(** [GetFileVersionInfoSize] returns the size, zero when it fails, and
    stores a handle. *)
Definition GetFileVersionInfoSize (file : wstring) : XM (DWORD * DWORD) :=
  r <- xsyscall (fun o t u => xos_GetFileVersionInfoSize o t u file)
                (XGetFileVersionInfoSize file) ;;
  xret (match r with Ok sized => sized | Fail _ => (0, 0) end).

Definition GetFileVersionInfo (file : wstring) (handle size : DWORD)
  : XM (ApiResult VersionBlock) :=
  xsyscall (fun o t u => xos_GetFileVersionInfo o t u file handle size)
           (XGetFileVersionInfo file handle size).

Definition VerQueryValue (block : VersionBlock) (subBlock : wstring)
  : XM (ApiResult (wstring * DWORD)) :=
  xsyscall (fun o t u => xos_VerQueryValue o t u block subBlock)
           (XVerQueryValue block subBlock).

Definition MessageBox (text caption : wstring) (uType : UINT) : XM Z :=
  xcall (fun o t u => xos_MessageBox o t u text caption uType)
        (XMessageBox text caption uType).

(** [std::wstring(s, count)]: the first [count] characters of the memory at
    [s]; reading past the memory the pointer leads to is undefined. *)
Definition wstring_of_pointer (memory : wstring) (count : Z) : XM wstring :=
  if count <=? Z.of_nat (List.length memory)
  then xret (firstn (Z.to_nat count) memory)
  else undefined.

(** Modelled from the spec: [AutoFree::CoTaskMem] and [AutoFree::Local] of
    smart/autofree.hpp, which is not part of the sources at hand; like the
    other owning handles of that header they release what they hold when
    their scope ends. *)
Definition CoTaskMem_dtor (p : option wstring) : XM unit :=
  match p with
  | Some path => fun x => Some (tt, xrecord (XCoTaskMemFree path) x)
  | None => xret tt
  end.

Definition Local_dtor (p : option wstring) : XM unit :=
  match p with
  | Some path => fun x => Some (tt, xrecord (XLocalFree path) x)
  | None => xret tt
  end.

Section FacadeRest.

(** What [data.detach()] of smart/autofree.hpp does, as for [CopyToClipboard]. *)
Variable detach : GlobalHandle -> option HGLOBAL * GlobalHandle.

(** [Error::ExceptionFromHRESULT] of ttberror.hpp and [NAME] of
    constants.hpp, which are not part of the sources at hand. *)
Variable ExceptionFromHRESULT : HRESULT -> wstring.
Variable NAME : wstring.

(** [win32::GetFileVersion].  The buffer of [size] bytes the code allocates
    is the block the answer of [GetFileVersionInfo] stands for.  The count
    [length - 1] is computed on [unsigned int]. *)
Definition GetFileVersion (file : wstring) : XM (wstring * HRESULT) :=
  sized <- GetFileVersionInfoSize file ;;
  let size := fst sized in
  let handle := snd sized in
  if size =? 0
  then
    error <- lift GetLastError ;;
    xret ([], HRESULT_FROM_WIN32 error)
  else
    data <- GetFileVersionInfo file handle size ;;
    match data with
    | Fail _ =>
        error <- lift GetLastError ;;
        xret ([], HRESULT_FROM_WIN32 error)
    | Ok block =>
        queried <- VerQueryValue block (L "\StringFileInfo\040904b0\FileVersion") ;;
        match queried with
        | Fail _ =>
            error <- lift GetLastError ;;
            xret ([], HRESULT_FROM_WIN32 error)
        | Ok found =>
            let fileVersion := fst found in
            let length := snd found in
            version <- wstring_of_pointer fileVersion (to_u32 (length - 1)) ;;
            xret (version, S_OK)
        end
    end.

(** [win32::GetWindowsBuild].  The folder asked for is always
    [FOLDERID_System] with [KF_FLAG_DEFAULT].  [GetFileVersion(kernel32.get())]
    builds a string from the pointer; from a null pointer that is
    undefined. *)
Definition GetWindowsBuild : XM (wstring * HRESULT) :=
  got <- SHGetKnownFolderPath ;;
  let hr := fst got in
  let system32 := snd got in
  if FAILED hr
  then
    CoTaskMem_dtor system32 ;;
    xret ([], hr)
  else
    combined <- PathAllocCombine system32 (L "kernel32.dll") PATHCCH_ALLOW_LONG_PATHS ;;
    let hr := fst combined in
    let kernel32 := snd combined in
    if FAILED hr
    then
      Local_dtor kernel32 ;;
      CoTaskMem_dtor system32 ;;
      xret ([], hr)
    else
      match kernel32 with
      | None => undefined
      | Some path =>
          result <- GetFileVersion path ;;
          Local_dtor kernel32 ;;
          CoTaskMem_dtor system32 ;;
          xret result
      end.

(** [win32::GetProcessorArchitecture] *)
Definition GetProcessorArchitecture : XM wstring :=
  wProcessorArchitecture <- GetNativeSystemInfo ;;
  xret
    (if wProcessorArchitecture =? PROCESSOR_ARCHITECTURE_AMD64 then L "x64"
     else if wProcessorArchitecture =? PROCESSOR_ARCHITECTURE_INTEL then L "x86"
     else if wProcessorArchitecture =? PROCESSOR_ARCHITECTURE_ARM64 then L "ARM64"
     else if wProcessorArchitecture =? PROCESSOR_ARCHITECTURE_ARM then L "ARM"
     else if wProcessorArchitecture =? PROCESSOR_ARCHITECTURE_IA64 then L "Itanium"
     else if wProcessorArchitecture =? PROCESSOR_ARCHITECTURE_UNKNOWN then L "Unknown"
     else L "Invalid").

(** The double-quote character of a wide literal. *)
Definition wquote : wstring := [34].

(** The text of a recovery prompt: the words Failed to open and what was
    to be opened, the target between double quotes and a full stop, two line
    feeds, [Error::ExceptionFromHRESULT(HRESULT_FROM_WIN32(err))], two line
    feeds, and the question. *)
Definition boxbuffer (what : string) (target : wstring) (err : DWORD)
    (question : string) : wstring :=
  (L "Failed to open " ++ L what ++ L " " ++ wquote) ++ target ++ (wquote ++ L ".") ++
  [10; 10] ++ ExceptionFromHRESULT (HRESULT_FROM_WIN32 err) ++
  [10; 10] ++ L question.

(** The body the three launchers hand to [std::thread]: show the prompt and
    copy the target on [IDYES]. *)
Definition recovery_body (what : string) (question : string) (p : RecoveryPrompt)
  : XM unit :=
  answer <- MessageBox (boxbuffer what (prompt_target p) (prompt_err p) question)
              (NAME ++ L " - Error")
              (Z.lor (Z.lor MB_ICONWARNING MB_YESNO) MB_SETFOREGROUND) ;;
  if answer =? IDYES
  then
    lift (CopyToClipboard detach (prompt_target p)) ;;
    xret tt
  else xret tt.

(** The thread of [win32::EditFile]. *)
Definition EditFile_thread : RecoveryPrompt -> XM unit :=
  recovery_body "file" "Copy the file location to the clipboard?".

(** The thread of [win32::OpenLink]. *)
Definition OpenLink_thread : RecoveryPrompt -> XM unit :=
  recovery_body "URL" "Copy the URL to the clipboard?".

(** The thread of [win32::OpenFolder]. *)
Definition OpenFolder_thread : RecoveryPrompt -> XM unit :=
  recovery_body "folder" "Copy the path to the clipboard?".

End FacadeRest.

Close Scope xwin32_scope.

(** ** The answers a version query meets *)

(** The answer [GetFileVersion] gets to its size query in world [x]. *)
Definition size_answer (file : wstring) (x : XWorld) : ApiResult (DWORD * DWORD) :=
  xos_GetFileVersionInfoSize (xos x) (trace (base x)) (xtrace x) file.

(** The answer to the read of the block that follows a size [sized]. *)
Definition info_answer (file : wstring) (x : XWorld) (sized : DWORD * DWORD)
  : ApiResult VersionBlock :=
  xos_GetFileVersionInfo (xos x) (trace (base x))
    (xtrace x ++ [XGetFileVersionInfoSize file (Ok sized)])
    file (snd sized) (fst sized).

(** The answer to the value query that follows the read of [block]. *)
Definition value_answer (file : wstring) (x : XWorld) (sized : DWORD * DWORD)
    (block : VersionBlock) : ApiResult (wstring * DWORD) :=
  xos_VerQueryValue (xos x) (trace (base x))
    ((xtrace x ++ [XGetFileVersionInfoSize file (Ok sized)]) ++
     [XGetFileVersionInfo file (snd sized) (fst sized) (Ok block)])
    block (L "\StringFileInfo\040904b0\FileVersion").

(** The answers [GetWindowsBuild] gets to its two path queries. *)
Definition folder_answer (x : XWorld) : HRESULT * option wstring :=
  xos_SHGetKnownFolderPath (xos x) (trace (base x)) (xtrace x).

Definition combine_answer (x : XWorld) : HRESULT * option wstring :=
  xos_PathAllocCombine (xos x) (trace (base x))
    (xtrace x ++ [XSHGetKnownFolderPath (fst (folder_answer x)) (snd (folder_answer x))])
    (snd (folder_answer x)) (L "kernel32.dll") PATHCCH_ALLOW_LONG_PATHS.

(** The world in which [GetWindowsBuild] hands over to [GetFileVersion]. *)
Definition after_combine (x : XWorld) : XWorld :=
  xrecord
    (XPathAllocCombine (snd (folder_answer x)) (L "kernel32.dll")
       PATHCCH_ALLOW_LONG_PATHS (fst (combine_answer x)) (snd (combine_answer x)))
    (xrecord (XSHGetKnownFolderPath (fst (folder_answer x)) (snd (folder_answer x))) x).

(** The architecture the system reports in world [x]. *)
Definition architecture_answer (x : XWorld) : Z :=
  xos_GetNativeSystemInfo (xos x) (trace (base x)) (xtrace x).

(** ** Sample systems of the second family *)

(** A system whose kernel32.dll carries version 10.0.19041.1. *)
Definition versioned : XOracle :=
  {| xos_GetNativeSystemInfo := fun _ _ => PROCESSOR_ARCHITECTURE_AMD64;
     xos_SHGetKnownFolderPath := fun _ _ => (S_OK, Some (L "C:\Windows\System32"));
     xos_PathAllocCombine := fun _ _ _ _ _ =>
       (S_OK, Some (L "C:\Windows\System32\kernel32.dll"));
     xos_GetFileVersionInfoSize := fun _ _ _ => Ok (1024, 0);
     xos_GetFileVersionInfo := fun _ _ _ _ _ => Ok [52; 3];
     xos_VerQueryValue := fun _ _ _ _ => Ok (L "10.0.19041.1" ++ [0], 13);
     xos_MessageBox := fun _ _ _ _ _ => IDYES |}.

(** The same system, for a file without version resource
    ([ERROR_RESOURCE_TYPE_NOT_FOUND]). *)
Definition unversioned : XOracle :=
  {| xos_GetNativeSystemInfo := xos_GetNativeSystemInfo versioned;
     xos_SHGetKnownFolderPath := xos_SHGetKnownFolderPath versioned;
     xos_PathAllocCombine := xos_PathAllocCombine versioned;
     xos_GetFileVersionInfoSize := fun _ _ _ => Fail 1813;
     xos_GetFileVersionInfo := xos_GetFileVersionInfo versioned;
     xos_VerQueryValue := xos_VerQueryValue versioned;
     xos_MessageBox := xos_MessageBox versioned |}.

(** A system that reports an empty version string of length zero. *)
Definition empty_version : XOracle :=
  {| xos_GetNativeSystemInfo := xos_GetNativeSystemInfo versioned;
     xos_SHGetKnownFolderPath := xos_SHGetKnownFolderPath versioned;
     xos_PathAllocCombine := xos_PathAllocCombine versioned;
     xos_GetFileVersionInfoSize := xos_GetFileVersionInfoSize versioned;
     xos_GetFileVersionInfo := xos_GetFileVersionInfo versioned;
     xos_VerQueryValue := fun _ _ _ _ => Ok ([], 0);
     xos_MessageBox := xos_MessageBox versioned |}.

(** A system that cannot tell where its system directory is
    ([E_FAIL]). *)
Definition lost_system32 : XOracle :=
  {| xos_GetNativeSystemInfo := xos_GetNativeSystemInfo versioned;
     xos_SHGetKnownFolderPath := fun _ _ => (-2147467259, None);
     xos_PathAllocCombine := xos_PathAllocCombine versioned;
     xos_GetFileVersionInfoSize := xos_GetFileVersionInfoSize versioned;
     xos_GetFileVersionInfo := xos_GetFileVersionInfo versioned;
     xos_VerQueryValue := xos_VerQueryValue versioned;
     xos_MessageBox := xos_MessageBox versioned |}.

Definition xboot (o : Oracle) (xo : XOracle) : XWorld :=
  {| base := boot o; xos := xo; xtrace := [] |}.

(** A system on which the shell refuses every launch
    ([ERROR_FILE_NOT_FOUND]). *)
Definition broken_shell : Oracle :=
  {| os_QueryFullProcessImageName := os_QueryFullProcessImageName obliging;
     os_VerifyVersionInfo := os_VerifyVersionInfo obliging;
     os_GetFileAttributes := os_GetFileAttributes obliging;
     os_GetProcessMitigationPolicy := os_GetProcessMitigationPolicy obliging;
     os_SetProcessMitigationPolicy := os_SetProcessMitigationPolicy obliging;
     os_GetVolumePathName := os_GetVolumePathName obliging;
     os_GetDriveType := os_GetDriveType obliging;
     os_OpenClipboard := os_OpenClipboard obliging;
     os_EmptyClipboard := os_EmptyClipboard obliging;
     os_GlobalAlloc := os_GlobalAlloc obliging;
     os_GlobalLock := os_GlobalLock obliging;
     os_SetClipboardData := os_SetClipboardData obliging;
     os_ShellExecuteEx := fun _ _ => Fail 2 |}.

(** * Theorems *)

Ltac run_facade :=
  unfold bind, ret, when, syscall, GetLastError, ErrorHandle, LastErrorHandle,
    read_ExeLocation, write_ExeLocation; cbn.

Lemma new_events_app (w w' : World) (evs : list Event) :
  trace w' = trace w ++ evs -> new_events w w' = evs.
Proof.
  intros H. unfold new_events. rewrite H.
  rewrite skipn_app, skipn_all, Nat.sub_diag. reflexivity.
Qed.

(** ** The version and filesystem probes *)

Lemma directory_bit (attributes : DWORD) :
  (Z.land attributes FILE_ATTRIBUTE_DIRECTORY =? 0) = negb (Z.testbit attributes 4).
Proof.
  unfold FILE_ATTRIBUTE_DIRECTORY.
  destruct (Z.testbit attributes 4) eqn:Hb; cbn.
  - apply Z.eqb_neq. intros H.
    pose proof (Z.land_spec attributes 16 4) as Hs.
    rewrite H, Hb in Hs. cbn in Hs. discriminate.
  - apply Z.eqb_eq. apply Z.bits_inj'. intros n Hn.
    rewrite Z.land_spec, Z.bits_0.
    destruct (Z.eq_dec n 4) as [-> | Hne].
    + rewrite Hb. reflexivity.
    + replace 16 with (2 ^ 4) by reflexivity.
      rewrite Z.pow2_bits_false by congruence.
      apply andb_false_r.
Qed.

(** Claim C10.  [IsAtLeastBuild] returns [true] exactly when the version
    check of the system succeeds.  When the check fails with
    [ERROR_OLD_WIN_VERSION] nothing is logged; when it fails with any other
    code the sink is called once, at [Log] severity, with that code, and the
    result is [false]. *)
Theorem IsAtLeastBuild_result (buildNumber : DWORD) (w : World) :
  fst (IsAtLeastBuild buildNumber w) = succeeded (version_check buildNumber w) /\
  sink_calls (new_events w (snd (IsAtLeastBuild buildNumber w))) =
    match version_check buildNumber w with
    | Ok _ => []
    | Fail e =>
        if e =? ERROR_OLD_WIN_VERSION then []
        else [(HRESULT_FROM_WIN32 e, Log, "Error obtaining version info."%string)]
    end.
Proof.
  unfold IsAtLeastBuild, VerifyVersionInfo, version_check.
  run_facade.
  match goal with |- context [os_VerifyVersionInfo ?o ?t ?i ?m ?c] =>
    destruct (os_VerifyVersionInfo o t i m c) as [[] | e] eqn:Hr end; cbn.
  - split; [reflexivity |].
    erewrite new_events_app; [| cbn; reflexivity]. reflexivity.
  - split; [reflexivity |].
    destruct (e =? ERROR_OLD_WIN_VERSION); cbn;
      (erewrite new_events_app; [| cbn; try rewrite <- app_assoc; reflexivity]);
      reflexivity.
Qed.

(** Claim C3.  When the attribute query of a path fails with a not-found
    code ([ERROR_FILE_NOT_FOUND] or [ERROR_PATH_NOT_FOUND]), [FileExists] and
    [IsDirectory] return [false] and the only event is the query: the sink
    is not called at any severity.  When it fails with another code both
    return [false] and call the sink once with that code, [FileExists] at
    [Log] severity and [IsDirectory] at [Debug] severity. *)
Theorem probes_on_failed_query (path : wstring) (w : World) (e : DWORD) :
  os_GetFileAttributes (os w) (trace w) path = Fail e ->
  fst (FileExists path w) = false /\
  fst (IsDirectory path w) = false /\
  new_events w (snd (FileExists path w)) =
    EvGetFileAttributes path (Fail e) ::
    (if not_found e then []
     else [EvErrorHandle (HRESULT_FROM_WIN32 e) Log "Failed to check if file exists."]) /\
  new_events w (snd (IsDirectory path w)) =
    EvGetFileAttributes path (Fail e) ::
    (if not_found e then []
     else [EvErrorHandle (HRESULT_FROM_WIN32 e) Debug
             "Failed to check if directory exists."]).
Proof.
  intros Hq.
  unfold FileExists, IsDirectory, GetFileAttributes, not_found.
  run_facade. rewrite Hq. cbn.
  destruct (e =? ERROR_FILE_NOT_FOUND), (e =? ERROR_PATH_NOT_FOUND); cbn;
    repeat split;
    (apply new_events_app; cbn; try rewrite <- app_assoc; reflexivity).
Qed.

(** Claim C4.  When the attribute query of a path succeeds (its answer is
    not [INVALID_FILE_ATTRIBUTES]), [IsDirectory] returns whether the
    directory bit of the attributes is set, [FileExists] returns whether it
    is clear, so exactly one of the two is [true], and neither calls the
    sink. *)
Theorem probes_on_resolved_attributes (path : wstring) (w : World) (attributes : DWORD) :
  os_GetFileAttributes (os w) (trace w) path = Ok attributes ->
  attributes <> INVALID_FILE_ATTRIBUTES ->
  fst (IsDirectory path w) = Z.testbit attributes 4 /\
  fst (FileExists path w) = negb (Z.testbit attributes 4) /\
  fst (IsDirectory path w) = negb (fst (FileExists path w)) /\
  sink_calls (new_events w (snd (IsDirectory path w))) = [] /\
  sink_calls (new_events w (snd (FileExists path w))) = [].
Proof.
  intros Hq Hvalid.
  unfold FileExists, IsDirectory, GetFileAttributes.
  run_facade. rewrite Hq. cbn.
  apply Z.eqb_neq in Hvalid. rewrite Hvalid. cbn.
  rewrite directory_bit, negb_involutive.
  repeat split;
    (erewrite new_events_app; [| cbn; reflexivity]); reflexivity.
Qed.

(** ** The shell launcher *)

Lemma OpenLink_defined (link : wstring) (w : World) (c : wchar) :
  wstring_at link 4 = Some c ->
  exists w',
    OpenLink link w = Some (tt, w') /\
    shell_classes (new_events w w') =
      [if c =? wchar_of_ascii "s" then L "https" else L "http"].
Proof.
  intros Hc. unfold OpenLink. rewrite Hc.
  match goal with |- exists w', Some ?r = _ /\ _ => exists (snd r) end.
  split; [match goal with |- Some ?r = _ => destruct r as [[] ?] end; reflexivity |].
  unfold ShellExecuteEx, thread_detach. run_facade.
  match goal with |- context [os_ShellExecuteEx ?o ?t ?i] =>
    destruct (os_ShellExecuteEx o t i) as [[] | e] end; cbn;
    (erewrite new_events_app; [| cbn; try rewrite <- app_assoc; reflexivity]);
    reflexivity.
Qed.

(** Claim C5.  Whenever the read of [link[4]] yields a character [c],
    [OpenLink] hands the shell the class ["https"] if [c] is ['s'] and
    ["http"] otherwise.  In particular ["http://example.com"] is launched
    with class ["http"] and ["https://example.com"] with class ["https"]. *)
Theorem OpenLink_class (link : wstring) (w : World) (c : wchar) :
  wstring_at link 4 = Some c ->
  (exists w',
     OpenLink link w = Some (tt, w') /\
     shell_classes (new_events w w') =
       [if c =? wchar_of_ascii "s" then L "https" else L "http"]) /\
  (exists w',
     OpenLink (L "http://example.com") w = Some (tt, w') /\
     shell_classes (new_events w w') = [L "http"]) /\
  (exists w',
     OpenLink (L "https://example.com") w = Some (tt, w') /\
     shell_classes (new_events w w') = [L "https"]).
Proof.
  intros Hc. split; [| split].
  - apply OpenLink_defined, Hc.
  - apply (OpenLink_defined (L "http://example.com") w (wchar_of_ascii ":")).
    reflexivity.
  - apply (OpenLink_defined (L "https://example.com") w (wchar_of_ascii "s")).
    reflexivity.
Qed.

(** Claim C8.  [OpenLink] reads [link[4]] unchecked.  For a link shorter
    than four characters the read is out of bounds and the call is
    undefined; at exactly four characters the read yields the null
    character, the call is defined and selects ["http"]; for a longer link
    the read yields the fifth character and the call is defined. *)
Theorem OpenLink_index_precondition (link : wstring) (w : World) :
  match Nat.compare (List.length link) 4 with
  | Lt => wstring_at link 4 = None /\ OpenLink link w = None
  | Eq =>
      wstring_at link 4 = Some 0 /\
      exists w',
        OpenLink link w = Some (tt, w') /\
        shell_classes (new_events w w') = [L "http"]
  | Gt =>
      exists c,
        nth_error link 4 = Some c /\
        wstring_at link 4 = Some c /\
        exists w', OpenLink link w = Some (tt, w')
  end.
Proof.
  destruct (Nat.compare_spec (List.length link) 4) as [Heq | Hlt | Hgt].
  - assert (Hat : wstring_at link 4 = Some 0).
    { unfold wstring_at. rewrite Heq. reflexivity. }
    split; [exact Hat |].
    destruct (OpenLink_defined link w 0 Hat) as [w' [Hrun Hclass]].
    exists w'. split; [exact Hrun | exact Hclass].
  - assert (Hat : wstring_at link 4 = None).
    { unfold wstring_at.
      destruct (Nat.ltb_spec 4 (List.length link)); [lia |].
      destruct (Nat.eqb_spec 4 (List.length link)); [lia | reflexivity]. }
    split; [exact Hat |].
    unfold OpenLink. rewrite Hat. reflexivity.
  - destruct (nth_error link 4) as [c |] eqn:Hnth.
    + exists c. split; [reflexivity |].
      assert (Hat : wstring_at link 4 = Some c).
      { unfold wstring_at.
        destruct (Nat.ltb_spec 4 (List.length link)); [exact Hnth | lia]. }
      split; [exact Hat |].
      destruct (OpenLink_defined link w c Hat) as [w' [Hrun _]].
      exists w'. exact Hrun.
    + apply nth_error_None in Hnth. lia.
Qed.

(** ** The executable-path cache *)

Lemma to_u32_range (x : Z) : 0 <= to_u32 x < 2 ^ 32.
Proof. unfold to_u32. apply Z.mod_pos_bound. reflexivity. Qed.

(** The facility and severity bits make the second branch of
    [HRESULT_FROM_WIN32] negative. *)
Lemma win32_hresult_negative (x : Z) :
  to_i32 (Z.lor (Z.lor (Z.land x 65535) (Z.shiftl FACILITY_WIN32 16)) 2147483648) < 0.
Proof.
  change 65535 with (Z.ones 16). rewrite Z.land_ones by lia.
  change (Z.shiftl FACILITY_WIN32 16) with 458752.
  pose proof (Z.mod_pos_bound x (2 ^ 16) eq_refl) as Hx.
  set (lo := x mod 2 ^ 16) in *.
  assert (Hlo : Z.log2 lo < 16).
  { destruct (Z.eq_dec lo 0) as [-> | Hne]; [reflexivity |].
    apply Z.log2_lt_pow2; lia. }
  assert (Hy : Z.log2 (Z.lor lo 458752) = 18).
  { rewrite Z.log2_lor by lia. change (Z.log2 458752) with 18. lia. }
  assert (Hy0 : 0 <= Z.lor lo 458752) by (apply Z.lor_nonneg; lia).
  set (v := Z.lor (Z.lor lo 458752) 2147483648).
  assert (Hv : Z.log2 v = 31).
  { unfold v. rewrite Z.log2_lor by lia. rewrite Hy.
    change (Z.log2 2147483648) with 31. lia. }
  assert (Hv0 : 0 <= v) by (apply Z.lor_nonneg; lia).
  assert (Hpos : 0 < v).
  { destruct (Z.eq_dec v 0) as [E | E]; [rewrite E in Hv; discriminate | lia]. }
  pose proof (Z.log2_spec v Hpos) as Hs. rewrite Hv in Hs.
  change (2 ^ 31) with 2147483648 in Hs.
  change (2 ^ Z.succ 31) with 4294967296 in Hs.
  unfold to_i32, to_u32. change (2 ^ 32) with 4294967296.
  change (2 ^ 31) with 2147483648.
  rewrite Z.mod_small by lia.
  destruct (Z.ltb_spec v 2147483648); lia.
Qed.

(** [HRESULT_FROM_WIN32] yields a success code exactly for the codes whose
    32-bit value is zero. *)
Lemma HRESULT_FROM_WIN32_succeeded (e : DWORD) :
  SUCCEEDED (HRESULT_FROM_WIN32 e) = (to_u32 e =? 0).
Proof.
  unfold SUCCEEDED, HRESULT_FROM_WIN32.
  pose proof (to_u32_range e) as Hu.
  pose proof (win32_hresult_negative e) as Hneg.
  destruct (Z.leb_spec (to_i32 e) 0) as [Hle | Hgt].
  - unfold to_i32 in *.
    destruct (Z.ltb_spec (to_u32 e) (2 ^ 31));
      destruct (Z.eqb_spec (to_u32 e) 0);
      destruct (Z.leb_spec 0 (to_u32 e));
      destruct (Z.leb_spec 0 (to_u32 e - 2 ^ 32)); try reflexivity; lia.
  - unfold to_i32 in Hgt.
    destruct (Z.ltb_spec (to_u32 e) (2 ^ 31));
      destruct (Z.eqb_spec (to_u32 e) 0); lia.
Qed.

(** One call of [GetExeLocation], case by case. *)
Lemma GetExeLocation_run (LONG_PATH : DWORD) (w : World) :
  let w' := snd (GetExeLocation LONG_PATH w) in
  fst (GetExeLocation LONG_PATH w) = m_ExeLocation w' /\
  os w' = os w /\
  if wempty (m_ExeLocation w)
  then
    match image_query LONG_PATH w with
    | Ok p =>
        m_ExeLocation w' = p /\
        trace w' = trace w ++ [EvQueryFullProcessImageName LONG_PATH (Ok p)]
    | Fail e =>
        m_ExeLocation w' = [] /\
        trace w' = trace w ++
          EvQueryFullProcessImageName LONG_PATH (Fail e) ::
          (if to_u32 e =? 0 then []
           else [EvErrorHandle (HRESULT_FROM_WIN32 e) Fatal
                   "Failed to determine executable location!"])
    end
  else w' = w
.
Proof.
  unfold GetExeLocation, GetProcessFileName, QueryFullProcessImageName, image_query.
  run_facade.
  destruct (wempty (m_ExeLocation w)) eqn:Hempty; cbn.
  - destruct (os_QueryFullProcessImageName (os w) (trace w) LONG_PATH) as [p | e]; cbn.
    + repeat split.
    + rewrite HRESULT_FROM_WIN32_succeeded.
      destruct (to_u32 e =? 0); cbn; repeat split; try reflexivity.
      * destruct (m_ExeLocation w); [reflexivity | discriminate].
      * rewrite <- app_assoc. reflexivity.
  - repeat split.
Qed.


Lemma guards_ret {A} (a : A) : guards_cache (ret a).
Proof. intros w _. reflexivity. Qed.

Lemma guards_bind {A B} (m : M A) (k : A -> M B) :
  guards_cache m -> (forall a, guards_cache (k a)) -> guards_cache (bind m k).
Proof.
  intros Hm Hk w Hw. unfold bind.
  rewrite (Hk (fst (m w)) (snd (m w))); rewrite (Hm w Hw); [reflexivity | exact Hw].
Qed.

Lemma guards_untouched {A} (m : M A) :
  (forall w, m_ExeLocation (snd (m w)) = m_ExeLocation w) -> guards_cache m.
Proof. intros H w _. apply H. Qed.

Lemma guards_syscall {A} (ask : Oracle -> list Event -> ApiResult A)
    (ev : ApiResult A -> Event) : guards_cache (syscall ask ev).
Proof. apply guards_untouched. reflexivity. Qed.

Lemma guards_when (c : bool) (m : M unit) : guards_cache m -> guards_cache (when c m).
Proof. intros H. destruct c; [exact H | apply guards_ret]. Qed.

Lemma guards_ErrorHandle hr level message : guards_cache (ErrorHandle hr level message).
Proof. apply guards_untouched. reflexivity. Qed.

Lemma guards_LastErrorHandle level message : guards_cache (LastErrorHandle level message).
Proof. apply guards_untouched. reflexivity. Qed.

Lemma guards_GetExeLocation (LONG_PATH : DWORD) : guards_cache (GetExeLocation LONG_PATH).
Proof.
  intros w Hw. pose proof (GetExeLocation_run LONG_PATH w) as Hr.
  cbn zeta in Hr. rewrite Hw in Hr. destruct Hr as [_ [_ ->]]. reflexivity.
Qed.

Create HintDb guards.
#[local] Hint Resolve guards_ret guards_syscall guards_when guards_ErrorHandle
  guards_LastErrorHandle guards_GetExeLocation : guards.

(** Peel a computation apart, one bind or one branch at a time. *)
Ltac guard_step :=
  match goal with
  | |- guards_cache (bind _ _) => apply guards_bind; [| intros ?]
  | |- guards_cache (match ?x with _ => _ end) => destruct x
  | |- guards_cache (fun _ => _) => apply guards_untouched; reflexivity
  | |- guards_cache _ => solve [auto with guards]
  end.

Ltac guard_all := cbn zeta; repeat guard_step.

Lemma guards_GetFileAttributes (p : wstring) : guards_cache (GetFileAttributes p).
Proof. unfold GetFileAttributes. guard_all. Qed.

Lemma guards_SetProcessMitigationPolicy (b : PolicyBuffer) : guards_cache (SetProcessMitigationPolicy b).
Proof. unfold SetProcessMitigationPolicy. guard_all. Qed.

Lemma guards_GetProcessMitigationPolicy (p : PROCESS_MITIGATION_POLICY) : guards_cache (GetProcessMitigationPolicy p).
Proof. unfold GetProcessMitigationPolicy. guard_all. Qed.

Lemma guards_VerifyVersionInfo i m c : guards_cache (VerifyVersionInfo i m c).
Proof. unfold VerifyVersionInfo. guard_all. Qed.

Lemma guards_GetVolumePathName p c : guards_cache (GetVolumePathName p c).
Proof. unfold GetVolumePathName. guard_all. Qed.

Lemma guards_OpenClipboard : guards_cache (OpenClipboard).
Proof. unfold OpenClipboard. guard_all. Qed.

Lemma guards_CloseClipboard : guards_cache (CloseClipboard).
Proof. unfold CloseClipboard. guard_all. Qed.

Lemma guards_EmptyClipboard : guards_cache (EmptyClipboard).
Proof. unfold EmptyClipboard. guard_all. Qed.

Lemma guards_GlobalAlloc (n : nat) : guards_cache (GlobalAlloc n).
Proof. unfold GlobalAlloc. guard_all. Qed.

Lemma guards_GlobalLock (h : HGLOBAL) : guards_cache (GlobalLock h).
Proof. unfold GlobalLock. guard_all. Qed.

Lemma guards_GlobalUnlock (h : HGLOBAL) : guards_cache (GlobalUnlock h).
Proof. unfold GlobalUnlock. guard_all. Qed.

Lemma guards_GlobalFree (h : HGLOBAL) : guards_cache (GlobalFree h).
Proof. unfold GlobalFree. guard_all. Qed.

Lemma guards_copy_into (h : HGLOBAL) (t : wstring) : guards_cache (copy_into h t).
Proof. unfold copy_into. guard_all. Qed.

Lemma guards_SetClipboardData (f : UINT) (h : option HGLOBAL) : guards_cache (SetClipboardData f h).
Proof. unfold SetClipboardData. guard_all. Qed.

Lemma guards_ShellExecuteEx (i : SHELLEXECUTEINFO) : guards_cache (ShellExecuteEx i).
Proof. unfold ShellExecuteEx. guard_all. Qed.

Lemma guards_thread_detach (p : RecoveryPrompt) : guards_cache (thread_detach p).
Proof. unfold thread_detach. guard_all. Qed.

Lemma guards_GetDriveType (r : wstring) : guards_cache (GetDriveType r).
Proof. unfold GetDriveType. guard_all. Qed.

Lemma guards_GetLastError : guards_cache (GetLastError).
Proof. unfold GetLastError. guard_all. Qed.

#[local] Hint Resolve guards_GetFileAttributes guards_SetProcessMitigationPolicy guards_GetProcessMitigationPolicy guards_VerifyVersionInfo guards_GetVolumePathName guards_OpenClipboard guards_CloseClipboard guards_EmptyClipboard guards_GlobalAlloc guards_GlobalLock guards_GlobalUnlock guards_GlobalFree guards_copy_into guards_SetClipboardData guards_ShellExecuteEx guards_thread_detach guards_GetDriveType guards_GetLastError : guards.

Lemma guards_ClipboardContext_ctor : guards_cache ClipboardContext_ctor.
Proof. unfold ClipboardContext_ctor. guard_all. Qed.

Lemma guards_ClipboardContext_dtor c : guards_cache (ClipboardContext_dtor c).
Proof. unfold ClipboardContext_dtor. guard_all. Qed.

Lemma guards_GlobalHandle_Alloc n : guards_cache (GlobalHandle_Alloc n).
Proof. unfold GlobalHandle_Alloc. guard_all. Qed.

Lemma guards_GlobalHandle_dtor d : guards_cache (GlobalHandle_dtor d).
Proof. unfold GlobalHandle_dtor. guard_all. Qed.

Lemma guards_AutoUnlock_ctor d : guards_cache (AutoUnlock_ctor d).
Proof. unfold AutoUnlock_ctor. guard_all. Qed.

Lemma guards_AutoUnlock_dtor l : guards_cache (AutoUnlock_dtor l).
Proof. unfold AutoUnlock_dtor. guard_all. Qed.

#[local] Hint Resolve guards_ClipboardContext_ctor guards_ClipboardContext_dtor
  guards_GlobalHandle_Alloc guards_GlobalHandle_dtor guards_AutoUnlock_ctor
  guards_AutoUnlock_dtor : guards.

Lemma Some_eq {A} (a b : A) : Some a = Some b -> a = b.
Proof. intros H. injection H as H. exact H. Qed.

Section CachePreservation.

Variable LONG_PATH : DWORD.

Variable detach : GlobalHandle -> option HGLOBAL * GlobalHandle.

Lemma guards_IsAtLeastBuild b : guards_cache (IsAtLeastBuild b).
Proof. unfold IsAtLeastBuild. guard_all. Qed.

Lemma guards_IsDirectory d : guards_cache (IsDirectory d).
Proof. unfold IsDirectory. guard_all. Qed.

Lemma guards_FileExists f : guards_cache (FileExists f).
Proof. unfold FileExists. guard_all. Qed.

Lemma guards_CopyToClipboard t : guards_cache (CopyToClipboard detach t).
Proof. unfold CopyToClipboard. guard_all. Qed.

Lemma guards_HardenProcess : guards_cache (HardenProcess LONG_PATH).
Proof. unfold HardenProcess. guard_all. Qed.

Lemma guards_OpenLink link w w' :
  OpenLink link w = Some (tt, w') ->
  wempty (m_ExeLocation w) = false ->
  m_ExeLocation w' = m_ExeLocation w.
Proof.
  unfold OpenLink. destruct (wstring_at link 4) as [c |]; [| discriminate].
  intros Hrun Hw. injection Hrun as Hrun.
  match type of Hrun with ?m w = _ =>
    assert (Hg : guards_cache m) by guard_all;
    specialize (Hg w Hw); rewrite Hrun in Hg; exact Hg
  end.
Qed.

Lemma run_op_guards o w w' :
  run_op LONG_PATH detach o w = Some w' ->
  wempty (m_ExeLocation w) = false ->
  m_ExeLocation w' = m_ExeLocation w.
Proof.
  destruct o; unfold run_op; intros Hrun Hw.
  - apply Some_eq in Hrun. subst w'. apply guards_GetExeLocation, Hw.
  - apply Some_eq in Hrun. subst w'. apply guards_IsAtLeastBuild, Hw.
  - apply Some_eq in Hrun. subst w'. apply guards_IsDirectory, Hw.
  - apply Some_eq in Hrun. subst w'. apply guards_FileExists, Hw.
  - apply Some_eq in Hrun. subst w'. apply guards_CopyToClipboard, Hw.
  - destruct (OpenLink link w) as [[[] v] |] eqn:Hlink; [| discriminate].
    apply Some_eq in Hrun. subst w'. eapply guards_OpenLink; eassumption.
  - apply Some_eq in Hrun. subst w'. apply guards_HardenProcess, Hw.
Qed.

(** Claim C9.  The executable-path cache is monotone.  Over any sequence of
    facade calls a filled cache keeps its value, so the cache leaves the
    empty state at most once.  As long as it is empty the next
    [GetExeLocation] sends a query to the system, and a query that fails
    leaves the cache empty. *)
Theorem ExeLocation_cache_monotone (ops : list Op) (w w' : World) :
  run_ops LONG_PATH detach ops w = Some w' ->
  (wempty (m_ExeLocation w) = false -> m_ExeLocation w' = m_ExeLocation w) /\
  (wempty (m_ExeLocation w') = true ->
   (exists rest,
      new_events w' (snd (GetExeLocation LONG_PATH w')) =
        EvQueryFullProcessImageName LONG_PATH (image_query LONG_PATH w') :: rest) /\
   (forall e, image_query LONG_PATH w' = Fail e ->
              m_ExeLocation (snd (GetExeLocation LONG_PATH w')) = [])).
Proof.
  intros Hrun. split.
  - revert w Hrun. induction ops as [| o rest IH]; intros w Hrun Hw.
    + injection Hrun as <-. reflexivity.
    + change (run_ops LONG_PATH detach (o :: rest) w)
        with (match run_op LONG_PATH detach o w with
              | Some v => run_ops LONG_PATH detach rest v
              | None => None
              end) in Hrun.
      destruct (run_op LONG_PATH detach o w) as [v |] eqn:Hop; [| discriminate].
      pose proof (run_op_guards o w v Hop Hw) as Hv.
      rewrite <- Hv. apply IH; [exact Hrun |]. rewrite Hv. exact Hw.
  - intros Hempty.
    pose proof (GetExeLocation_run LONG_PATH w') as Hr. cbn zeta in Hr.
    rewrite Hempty in Hr. destruct Hr as [_ [_ Hcase]].
    destruct (image_query LONG_PATH w') as [p | e];
      destruct Hcase as [Hcache Htrace]; split.
    + eexists. apply new_events_app. exact Htrace.
    + intros e He. discriminate.
    + eexists. apply new_events_app. exact Htrace.
    + intros e' _. exact Hcache.
Qed.

End CachePreservation.

(** ** The clipboard transfer *)

(** Split on the answer of the next Win32 call. *)
Ltac next_answer :=
  match goal with
  | |- context [match ?r with Ok _ => _ | Fail _ => _ end] =>
      lazymatch r with
      | context [fst] => fail
      | context [snd] => fail
      | _ => let H := fresh "Hcall" in destruct r eqn:H; cbn
      end
  end.

Ltac settle_trace :=
  erewrite new_events_app by (cbn; rewrite <- ?app_assoc; cbn; reflexivity).

(** Claim C2, on the code.  With the usual [detach()], whenever the
    hand-off [SetClipboardData] fails, [CopyToClipboard] returns [false]
    and the block it allocated is never freed: it is still allocated when
    the function returns, and the clipboard does not own it either. *)
Theorem CopyToClipboard_failed_handoff_leaks
    (text : wstring) (w : World) (h : HGLOBAL) (e : DWORD) :
  let w' := snd (CopyToClipboard detach_release text w) in
  In (EvSetClipboardData CF_UNICODETEXT (Some h) (Fail e)) (new_events w w') ->
  fst (CopyToClipboard detach_release text w) = false /\
  ~ In (EvGlobalFree h) (new_events w w') /\
  is_live h w' = true /\
  clipboard w' = clipboard w.
Proof.
  cbn zeta.
  unfold CopyToClipboard, ClipboardContext_ctor, ClipboardContext_dtor,
    GlobalHandle_Alloc, GlobalHandle_dtor, AutoUnlock_ctor, AutoUnlock_dtor,
    detach_release, OpenClipboard, CloseClipboard, EmptyClipboard, GlobalAlloc,
    GlobalLock, GlobalUnlock, GlobalFree, SetClipboardData, copy_into, is_live.
  run_facade.
  repeat next_answer; settle_trace; cbn; intros Hin;
    repeat (destruct Hin as [Hin | Hin]; try discriminate Hin); try contradiction.
  injection Hin as <- <-.
  repeat split.
  - intros Hfree.
    repeat (destruct Hfree as [Hfree | Hfree]; try discriminate Hfree).
    exact Hfree.
  - rewrite Z.eqb_refl. cbn. rewrite Z.eqb_refl. reflexivity.
Qed.

Ltac find_event := cbn; repeat first [left; reflexivity | right].

Ltac no_such_event H :=
  repeat (destruct H as [H | H]; try discriminate H); try contradiction.

(** The argument [data.detach()] is evaluated before [SetClipboardData]
    runs, so what it leaves in the handle cannot depend on the outcome of
    the hand-off.  Whatever [detach] does, one of the two outcomes goes
    wrong: either a refused block is not freed, or an accepted block is
    freed under the clipboard. *)
Lemma handoff_outcome_unknown_to_detach
    (detach : GlobalHandle -> option HGLOBAL * GlobalHandle) :
  ~ In (EvGlobalFree 4096)
       (trace (snd (CopyToClipboard detach (L "a") (boot stubborn_clipboard)))) \/
  In (EvGlobalFree 4096)
     (trace (snd (CopyToClipboard detach (L "a") (boot obliging)))).
Proof.
  unfold CopyToClipboard, ClipboardContext_ctor, ClipboardContext_dtor,
    GlobalHandle_Alloc, GlobalHandle_dtor, AutoUnlock_ctor, AutoUnlock_dtor,
    OpenClipboard, CloseClipboard, EmptyClipboard, GlobalAlloc,
    GlobalLock, GlobalUnlock, GlobalFree, SetClipboardData, copy_into.
  run_facade.
  match goal with |- context [detach ?d] =>
    destruct (detach d) as [raw [[kept |]]] end; cbn.
  - destruct (Z.eq_dec kept 4096) as [-> | Hother].
    + right. destruct raw; find_event.
    + left. intros Hfree. no_such_event Hfree. congruence.
  - left. intros Hfree. no_such_event Hfree.
Qed.

(** ** The process hardener *)

Lemma bind_bind {A B C} (m : M A) (k : A -> M B) (h : B -> M C) (w : World) :
  bind (bind m k) h w = bind m (fun a => bind (k a) h) w.
Proof. reflexivity. Qed.

Lemma bind_ext {A B} (m : M A) (k k' : A -> M B) (w : World) :
  (forall a v, k a v = k' a v) -> bind m k w = bind m k' w.
Proof. intros H. unfold bind. apply H. Qed.

Lemma HardenProcess_by_steps (LONG_PATH : DWORD) (w : World) :
  HardenProcess LONG_PATH w =
  (aslr_step ;;
   install dynamic_code_buffer "Couldn't disable dynamic code generation." ;;
   install strict_handle_buffer "Couldn't enable strict handle checks." ;;
   install extension_point_buffer "Couldn't disable extension point DLLs." ;;
   install signature_buffer "Couldn't enable image signature enforcement." ;;
   image_load_step LONG_PATH) w.
Proof.
  unfold HardenProcess, aslr_step, image_load_step, install, dynamic_code_buffer,
    strict_handle_buffer, extension_point_buffer, signature_buffer, image_load_buffer.
  cbn zeta.
  rewrite bind_bind. apply bind_ext. intros queried w1.
  apply bind_ext. intros _ w2.
  do 4 (rewrite bind_bind; apply bind_ext; intros ? ?; apply bind_ext; intros _ ?).
  reflexivity.
Qed.

Lemma install_run (buffer : PolicyBuffer) (message : string) (w : World) :
  trace (snd (install buffer message w)) =
  trace w ++
  install_trace buffer message (os_SetProcessMitigationPolicy (os w) (trace w) buffer).
Proof.
  unfold install, SetProcessMitigationPolicy, install_trace. run_facade.
  destruct (os_SetProcessMitigationPolicy (os w) (trace w) buffer); cbn;
    rewrite <- ?app_assoc; reflexivity.
Qed.

Lemma aslr_step_run (w : World) :
  exists r,
    trace (snd (aslr_step w)) =
    trace w ++
    aslr_trace (os_GetProcessMitigationPolicy (os w) (trace w) ProcessASLRPolicy) r.
Proof.
  unfold aslr_step, GetProcessMitigationPolicy, aslr_trace.
  unfold bind at 1. unfold syscall at 1. cbn.
  destruct (os_GetProcessMitigationPolicy (os w) (trace w) ProcessASLRPolicy)
    as [aslr_policy | e]; cbn.
  - eexists. rewrite install_run. cbn. rewrite <- app_assoc. reflexivity.
  - exists (Ok tt). run_facade. rewrite <- app_assoc. reflexivity.
Qed.

Lemma image_load_step_run (LONG_PATH : DWORD) (w : World) :
  exists exe_events exe resolved drive r,
    exe_location_events LONG_PATH exe_events /\
    trace (snd (image_load_step LONG_PATH w)) =
    trace w ++ exe_events ++ image_load_trace LONG_PATH exe resolved drive r.
Proof.
  unfold image_load_step.
  unfold bind at 1.
  pose proof (GetExeLocation_run LONG_PATH w) as Hexe. cbn zeta in Hexe.
  destruct (GetExeLocation LONG_PATH w) as [exe w1]. cbn [fst snd] in *.
  destruct Hexe as [_ [_ Hexe]].
  assert (Hev : exists exe_events,
             exe_location_events LONG_PATH exe_events /\
             trace w1 = trace w ++ exe_events).
  { destruct (wempty (m_ExeLocation w)).
    - destruct (image_query LONG_PATH w) as [p | e]; destruct Hexe as [_ Ht].
      + eexists. split; [apply exe_queried | exact Ht].
      + destruct (to_u32 e =? 0); eexists; (split; [| exact Ht]).
        * apply exe_queried.
        * apply exe_fatal.
    - subst w1. exists []. split; [apply exe_cached | symmetry; apply app_nil_r]. }
  destruct Hev as [exe_events [Hshape Htrace]].
  exists exe_events, exe.
  unfold GetVolumePathName, GetDriveType, image_load_trace, remote_restriction.
  unfold bind at 1. unfold syscall at 1. cbn.
  destruct (os_GetVolumePathName (os w1) (trace w1) exe LONG_PATH) as [volume | e].
  - exists (Ok volume). run_facade. eexists. eexists. split; [exact Hshape |].
    rewrite install_run. cbn. rewrite Htrace. rewrite <- !app_assoc. reflexivity.
  - exists (Fail e), 0. run_facade. eexists. split; [exact Hshape |].
    rewrite install_run. cbn. rewrite Htrace. rewrite <- !app_assoc. reflexivity.
Qed.

Lemma snd_then {A} (m : M A) (k : M unit) (w : World) :
  snd ((m ;; k) w) = snd (k (snd (m w))).
Proof. reflexivity. Qed.







Lemma installs_app (a b : list Event) : installs (a ++ b) = installs a ++ installs b.
Proof.
  induction a as [| e a IH]; [reflexivity |].
  destruct e; cbn; rewrite IH; reflexivity.
Qed.




Ltac logged_or_quiet :=
  first [ left; reflexivity | right; split; reflexivity ].

Ltac summarize :=
  repeat split; cbn; auto;
  try (intros ? ?; assumption);
  try (do 2 eexists; reflexivity);
  repeat (apply Forall_cons; [logged_or_quiet |]); try apply Forall_nil.



Lemma summary_exe_location (LONG_PATH : DWORD) (evs : list Event) :
  exe_location_events LONG_PATH evs -> summary [] [] false evs.
Proof. intros [| r | e]; summarize. Qed.

Lemma summary_image_load (LONG_PATH : DWORD) (exe : wstring)
    (resolved : ApiResult wstring) (drive : UINT) (r : ApiResult unit) :
  summary [ProcessImageLoadPolicy]
    [image_load_buffer (remote_restriction resolved drive)] false
    (image_load_trace LONG_PATH exe resolved drive r).
Proof. destruct resolved as [volume | e]; destruct r as [[] | e']; summarize. Qed.















(** * Concrete runs *)


(** The failed first call of the counterexample reports at [Fatal]
    severity, and leaves the cache empty. *)
Example GetExeLocation_refused_run :
  let w' := snd (GetExeLocation sample_LONG_PATH (boot flaky_image_query)) in
  trace w' =
    [ EvQueryFullProcessImageName sample_LONG_PATH (Fail 5);
      EvErrorHandle (-2147024891) Fatal "Failed to determine executable location!" ] /\
  m_ExeLocation w' = [].
Proof. split; reflexivity. Qed.


Lemma probes_on_failed_query_witness :
  os_GetFileAttributes (os (boot locked_files)) (trace (boot locked_files))
    (L "C:\pagefile.sys") = Fail 5 /\
  fst (FileExists (L "C:\pagefile.sys") (boot locked_files)) = false /\
  fst (IsDirectory (L "C:\pagefile.sys") (boot locked_files)) = false.
Proof.
  split; [reflexivity |].
  pose proof (probes_on_failed_query (L "C:\pagefile.sys") (boot locked_files) 5 eq_refl)
    as [Hfile [Hdir _]].
  split; [exact Hfile | exact Hdir].
Defined.

Lemma probes_on_resolved_attributes_witness :
  fst (IsDirectory (L "C:\Windows") (boot only_directories)) = true /\
  fst (FileExists (L "C:\Windows") (boot only_directories)) = false.
Proof.
  assert (Hvalid : FILE_ATTRIBUTE_DIRECTORY <> INVALID_FILE_ATTRIBUTES)
    by (intros H; discriminate H).
  pose proof (probes_on_resolved_attributes (L "C:\Windows") (boot only_directories)
                FILE_ATTRIBUTE_DIRECTORY eq_refl Hvalid) as [Hdir [Hfile _]].
  split; [exact Hdir | exact Hfile].
Defined.

Lemma OpenLink_class_witness :
  wstring_at (L "https://example.com") 4 = Some (wchar_of_ascii "s") /\
  exists w',
    OpenLink (L "https://example.com") (boot obliging) = Some (tt, w') /\
    shell_classes (new_events (boot obliging) w') = [L "https"].
Proof.
  split; [reflexivity |].
  exact (proj1 (OpenLink_class (L "https://example.com") (boot obliging)
                  (wchar_of_ascii "s") eq_refl)).
Defined.

(** The run of claim C2's failing input: the block 4096 is allocated,
    filled, refused by the clipboard, and still allocated at the end; the
    trace holds no [GlobalFree]. *)
Example CopyToClipboard_refused_run :
  let run := CopyToClipboard detach_release (L "a") (boot stubborn_clipboard) in
  fst run = false /\
  trace (snd run) =
    [ EvOpenClipboard (Ok tt);
      EvEmptyClipboard (Ok tt);
      EvGlobalAlloc 2 (Ok 4096);
      EvGlobalLock 4096 (Ok tt);
      EvGlobalUnlock 4096;
      EvSetClipboardData CF_UNICODETEXT (Some 4096) (Fail 1418);
      EvErrorHandle (-2147023478) Error "Failed to copy data to clipboard.";
      EvCloseClipboard ] /\
  global_memory (snd run) = [(4096, L "a" ++ [0])] /\
  clipboard (snd run) = None.
Proof. cbn zeta. repeat split; reflexivity. Qed.

(** The same text on a system whose clipboard accepts the block. *)
Example CopyToClipboard_accepted_run :
  let run := CopyToClipboard detach_release (L "a") (boot obliging) in
  fst run = true /\
  global_memory (snd run) = [] /\
  clipboard (snd run) = Some (4096, L "a" ++ [0]).
Proof. cbn zeta. repeat split; reflexivity. Qed.

Lemma CopyToClipboard_failed_handoff_leaks_witness :
  let w := boot stubborn_clipboard in
  let w' := snd (CopyToClipboard detach_release (L "a") w) in
  In (EvSetClipboardData CF_UNICODETEXT (Some 4096) (Fail 1418)) (new_events w w') /\
  ~ In (EvGlobalFree 4096) (new_events w w') /\
  is_live 4096 w' = true.
Proof.
  cbn zeta.
  assert (Hin : In (EvSetClipboardData CF_UNICODETEXT (Some 4096) (Fail 1418))
                   (new_events (boot stubborn_clipboard)
                      (snd (CopyToClipboard detach_release (L "a")
                              (boot stubborn_clipboard)))))
    by (vm_compute; tauto).
  split; [exact Hin |].
  pose proof (CopyToClipboard_failed_handoff_leaks (L "a") (boot stubborn_clipboard)
                4096 1418 Hin) as [_ [Hfree [Hlive _]]].
  split; [exact Hfree | exact Hlive].
Defined.

Lemma ExeLocation_cache_monotone_witness :
  let w := snd (GetExeLocation sample_LONG_PATH (boot obliging)) in
  let ops := [OpCopyToClipboard (L "a"); OpHardenProcess; OpGetExeLocation] in
  let w' :=
    snd (GetExeLocation sample_LONG_PATH
           (snd (HardenProcess sample_LONG_PATH
                   (snd (CopyToClipboard detach_release (L "a") w))))) in
  run_ops sample_LONG_PATH detach_release ops w = Some w' /\
  wempty (m_ExeLocation w) = false /\
  m_ExeLocation w' = L "C:\TranslucentTB.exe".
Proof.
  cbn zeta.
  split; [reflexivity |].
  split; [reflexivity |].
  rewrite (proj1 (ExeLocation_cache_monotone sample_LONG_PATH detach_release
                    [OpCopyToClipboard (L "a"); OpHardenProcess; OpGetExeLocation]
                    (snd (GetExeLocation sample_LONG_PATH (boot obliging))) _ eq_refl)
             eq_refl).
  reflexivity.
Defined.

(** [HardenProcess] on a system that refuses every install: all six steps
    run, each refusal is logged at [Log] severity. *)
Example HardenProcess_all_refused :
  let hostile :=
    {| os_QueryFullProcessImageName := os_QueryFullProcessImageName obliging;
       os_VerifyVersionInfo := os_VerifyVersionInfo obliging;
       os_GetFileAttributes := os_GetFileAttributes obliging;
       os_GetProcessMitigationPolicy := os_GetProcessMitigationPolicy obliging;
       os_SetProcessMitigationPolicy := fun _ _ => Fail 5;
       os_GetVolumePathName := fun _ _ _ => Fail 3;
       os_GetDriveType := os_GetDriveType obliging;
       os_OpenClipboard := os_OpenClipboard obliging;
       os_EmptyClipboard := os_EmptyClipboard obliging;
       os_GlobalAlloc := os_GlobalAlloc obliging;
       os_GlobalLock := os_GlobalLock obliging;
       os_SetClipboardData := os_SetClipboardData obliging;
       os_ShellExecuteEx := os_ShellExecuteEx obliging |} in
  let evs := trace (snd (HardenProcess sample_LONG_PATH (boot hostile))) in
  steps_run evs = six_steps /\
  sink_levels evs = [Log; Log; Log; Log; Log; Log; Log] /\
  installs evs =
    [ AslrBuffer {| EnableBottomUpRandomization := true;
                    EnableForceRelocateImages := true;
                    EnableHighEntropy := true;
                    DisallowStrippedImages := true |};
      dynamic_code_buffer; strict_handle_buffer; extension_point_buffer;
      signature_buffer; image_load_buffer false ].
Proof. cbn zeta. repeat split; vm_compute; reflexivity. Qed.



(** * The rest of the facade: properties *)

(** ** The image-path query *)

Lemma FAILED_not_SUCCEEDED (hr : HRESULT) : FAILED hr = negb (SUCCEEDED hr).
Proof. unfold FAILED, SUCCEEDED. destruct (Z.ltb_spec hr 0); destruct (Z.leb_spec 0 hr); lia || reflexivity. Qed.

(** [GetProcessFileName] never returns a path together with a failure code:
    when the query succeeds the pair is the path and [S_OK]; when it fails
    the string is empty and the code is [HRESULT_FROM_WIN32] of the error,
    which is a failure code unless the error's 32-bit value is zero.  The
    function does not log and does not touch the cache. *)
Theorem GetProcessFileName_pair (LONG_PATH : DWORD) (w : World) :
  let r := fst (GetProcessFileName LONG_PATH w) in
  let w' := snd (GetProcessFileName LONG_PATH w) in
  (FAILED (snd r) = true -> fst r = []) /\
  match image_query LONG_PATH w with
  | Ok p => r = (p, S_OK)
  | Fail e =>
      r = ([], HRESULT_FROM_WIN32 e) /\
      FAILED (snd r) = negb (to_u32 e =? 0)
  end /\
  new_events w w' =
    [EvQueryFullProcessImageName LONG_PATH (image_query LONG_PATH w)] /\
  m_ExeLocation w' = m_ExeLocation w.
Proof.
  cbn zeta.
  unfold GetProcessFileName, QueryFullProcessImageName, image_query.
  run_facade.
  destruct (os_QueryFullProcessImageName (os w) (trace w) LONG_PATH) as [p | e]; cbn.
  - repeat split; try discriminate.
    apply new_events_app. reflexivity.
  - rewrite FAILED_not_SUCCEEDED, HRESULT_FROM_WIN32_succeeded.
    repeat split. apply new_events_app. reflexivity.
Qed.

(** ** The launchers *)

Lemma launch_run (info : SHELLEXECUTEINFO) (target : wstring) (w : World) :
  let run :=
    (launched <- ShellExecuteEx info ;;
     if negb launched
     then
       err <- GetLastError ;;
       thread_detach {| prompt_target := target; prompt_err := err |}
     else ret tt) w in
  new_events w (snd run) =
    EvShellExecuteEx info (os_ShellExecuteEx (os w) (trace w) info) ::
    match os_ShellExecuteEx (os w) (trace w) info with
    | Ok _ => []
    | Fail e => [EvThreadDetach {| prompt_target := target; prompt_err := e |}]
    end /\
  m_ExeLocation (snd run) = m_ExeLocation w /\
  global_memory (snd run) = global_memory w /\
  clipboard (snd run) = clipboard w.
Proof.
  cbn zeta. unfold ShellExecuteEx, thread_detach. run_facade.
  destruct (os_ShellExecuteEx (os w) (trace w) info) as [[] | e]; cbn;
    repeat split; apply new_events_app; cbn; rewrite <- ?app_assoc; reflexivity.
Qed.

Lemma launch_observed (info : SHELLEXECUTEINFO) (target : wstring) (w : World) :
  let evs :=
    new_events w
      (snd ((launched <- ShellExecuteEx info ;;
             if negb launched
             then
               err <- GetLastError ;;
               thread_detach {| prompt_target := target; prompt_err := err |}
             else ret tt) w)) in
  shell_launches evs = [info] /\
  (exists r,
     In (EvShellExecuteEx info r) evs /\
     threads_detached evs =
       match r with
       | Ok _ => []
       | Fail e => [{| prompt_target := target; prompt_err := e |}]
       end) /\
  sink_calls evs = [].
Proof.
  cbn zeta. destruct (launch_run info target w) as [Hev _]. cbn zeta in Hev.
  rewrite Hev.
  destruct (os_ShellExecuteEx (os w) (trace w) info) as [[] | e];
    (split; [reflexivity | split; [| reflexivity]]);
    eexists; (split; [left; reflexivity | reflexivity]).
Qed.

(** [EditFile] and [OpenFolder] are defined on every path, the empty one
    included.  Each hands the shell one launch with verb ["open"], the path
    as file and the class ["txtfile"], respectively ["folder"].  When the
    shell refuses, exactly one recovery thread is detached, and what it
    captured is the path and the error code of the refused launch; when the
    shell accepts, none is.  Neither function calls the error sink in
    either case. *)
Theorem EditFile_OpenFolder_launch (path : wstring) (w : World) :
  let edit := new_events w (snd (EditFile path w)) in
  let open := new_events w (snd (OpenFolder path w)) in
  shell_launches edit =
    [{| fMask := SEE_MASK_CLASSNAME; lpVerb := L "open"; lpFile := path;
        nShow := SW_SHOW; lpClass := L "txtfile" |}] /\
  shell_launches open =
    [{| fMask := SEE_MASK_CLASSNAME; lpVerb := L "open"; lpFile := path;
        nShow := SW_SHOW; lpClass := L "folder" |}] /\
  (exists r,
     In (EvShellExecuteEx
           {| fMask := SEE_MASK_CLASSNAME; lpVerb := L "open"; lpFile := path;
              nShow := SW_SHOW; lpClass := L "txtfile" |} r) edit /\
     threads_detached edit =
       match r with
       | Ok _ => []
       | Fail e => [{| prompt_target := path; prompt_err := e |}]
       end) /\
  (exists r,
     In (EvShellExecuteEx
           {| fMask := SEE_MASK_CLASSNAME; lpVerb := L "open"; lpFile := path;
              nShow := SW_SHOW; lpClass := L "folder" |} r) open /\
     threads_detached open =
       match r with
       | Ok _ => []
       | Fail e => [{| prompt_target := path; prompt_err := e |}]
       end) /\
  sink_calls edit = [] /\
  sink_calls open = [].
Proof.
  cbn zeta. unfold EditFile, OpenFolder. cbn zeta.
  pose proof (launch_observed
                {| fMask := SEE_MASK_CLASSNAME; lpVerb := L "open"; lpFile := path;
                   nShow := SW_SHOW; lpClass := L "txtfile" |} path w)
    as (He1 & He2 & He3).
  pose proof (launch_observed
                {| fMask := SEE_MASK_CLASSNAME; lpVerb := L "open"; lpFile := path;
                   nShow := SW_SHOW; lpClass := L "folder" |} path w)
    as (Ho1 & Ho2 & Ho3).
  cbn zeta in *.
  repeat split; assumption.
Qed.

(** A defined [OpenLink] launches the link itself with verb ["open"].  When
    the shell refuses the launch, exactly one recovery thread is detached
    with the link and the error code of the refusal; when the shell accepts,
    none.  The error sink is not called, and the cache, the global memory
    and the clipboard are left alone. *)
Theorem OpenLink_recovery (link : wstring) (w : World) (c : wchar) :
  wstring_at link 4 = Some c ->
  exists w' info r,
    OpenLink link w = Some (tt, w') /\
    new_events w w' =
      EvShellExecuteEx info r ::
      match r with
      | Ok _ => []
      | Fail e => [EvThreadDetach {| prompt_target := link; prompt_err := e |}]
      end /\
    lpFile info = link /\ lpVerb info = L "open" /\
    sink_calls (new_events w w') = [] /\
    m_ExeLocation w' = m_ExeLocation w /\
    global_memory w' = global_memory w /\
    clipboard w' = clipboard w.
Proof.
  intros Hc. unfold OpenLink. rewrite Hc.
  match goal with |- context [Some (?m w)] =>
    match m with
    | context [ShellExecuteEx ?i] =>
        pose proof (launch_run i link w) as (Hev & Hcache & Hmem & Hclip);
        exists (snd (m w)), i, (os_ShellExecuteEx (os w) (trace w) i)
    end
  end.
  cbn zeta in *.
  split; [match goal with |- Some ?r = _ => destruct r as [[] ?] end; reflexivity |].
  split; [exact Hev |].
  rewrite Hev.
  repeat split; try assumption.
  destruct (os_ShellExecuteEx _ _ _); reflexivity.
Qed.

(** ** The clipboard transfer *)

Ltac unfold_clipboard :=
  unfold CopyToClipboard, ClipboardContext_ctor, ClipboardContext_dtor,
    GlobalHandle_Alloc, GlobalHandle_dtor, AutoUnlock_ctor, AutoUnlock_dtor,
    OpenClipboard, CloseClipboard, EmptyClipboard, GlobalAlloc,
    GlobalLock, GlobalUnlock, GlobalFree, SetClipboardData, copy_into;
  run_facade.

(** Split on what [detach] hands out and keeps. *)
Ltac split_detach detach :=
  match goal with
  | |- context [detach ?d] =>
      let raw := fresh "raw" in
      let kept := fresh "kept" in
      destruct (detach d) as [[raw |] [[kept |]]]; cbn
  end.

Ltac clipboard_paths detach :=
  unfold_clipboard;
  repeat first [next_answer | split_detach detach].

(** [CopyToClipboard] returns [true] exactly when the system refused none of
    its calls.  A run that returns [true] never calls the error sink; a run
    that returns [false] calls it exactly once, at [Error] severity.  This
    holds whatever [detach] does. *)
Theorem CopyToClipboard_reports
    (detach : GlobalHandle -> option HGLOBAL * GlobalHandle)
    (text : wstring) (w : World) :
  let run := CopyToClipboard detach text w in
  let evs := new_events w (snd run) in
  fst run = negb (existsb refused evs) /\
  if fst run
  then sink_calls evs = []
  else exists hr message, sink_calls evs = [(hr, Error, message)].
Proof.
  cbn zeta. clipboard_paths detach; settle_trace; cbn;
    (split; [reflexivity | try reflexivity; do 2 eexists; reflexivity]).
Qed.

(** The clipboard is closed exactly when it was opened: a run whose
    [OpenClipboard] succeeded ends with [CloseClipboard], its only one; a run
    whose [OpenClipboard] failed makes no further clipboard or memory call
    after reporting the failure.  This holds whatever [detach] does. *)
Theorem CopyToClipboard_closes_what_it_opened
    (detach : GlobalHandle -> option HGLOBAL * GlobalHandle)
    (text : wstring) (w : World) :
  let evs := new_events w (snd (CopyToClipboard detach text w)) in
  match os_OpenClipboard (os w) (trace w) with
  | Ok _ =>
      hd_error evs = Some (EvOpenClipboard (Ok tt)) /\
      last evs (EvOpenClipboard (Ok tt)) = EvCloseClipboard /\
      List.length (filter is_CloseClipboard evs) = 1%nat
  | Fail e =>
      evs = [ EvOpenClipboard (Fail e);
              EvErrorHandle (HRESULT_FROM_WIN32 e) Error "Failed to open clipboard." ]
  end.
Proof.
  cbn zeta. unfold_clipboard.
  destruct (os_OpenClipboard (os w) (trace w)) as [[] | e] eqn:Hopen; cbn.
  - repeat first [next_answer | split_detach detach]; settle_trace;
      repeat split; reflexivity.
  - settle_trace. reflexivity.
Qed.

(** The lock on the block is scoped: in every run, whatever [detach] does,
    a lock that was acquired is released, only a held lock is released, and
    no block is freed or handed to the clipboard while it is locked. *)
Theorem CopyToClipboard_lock_discipline
    (detach : GlobalHandle -> option HGLOBAL * GlobalHandle)
    (text : wstring) (w : World) :
  lock_discipline [] (new_events w (snd (CopyToClipboard detach text w))) = true.
Proof.
  clipboard_paths detach; settle_trace; cbn; rewrite ?Z.eqb_refl; reflexivity.
Qed.

Lemma skipn_repeat_one (n : nat) (z : Z) : skipn n (repeat z (n + 1)) = [z].
Proof. induction n as [| n IH]; [reflexivity | exact IH]. Qed.

Lemma removed_block_not_live (h : HGLOBAL) (g : list (HGLOBAL * wstring)) :
  existsb (fun b => fst b =? h) (remove_block h g) = false.
Proof.
  unfold remove_block. induction g as [| [k c] g IH]; [reflexivity |].
  cbn. destruct (k =? h) eqn:Hk; cbn; rewrite ?Hk; exact IH.
Qed.

(** A run of [CopyToClipboard] that returns [true], step by step. *)
Lemma CopyToClipboard_success_run (text : wstring) (w : World) :
  let run := CopyToClipboard detach_release text w in
  fst run = true ->
  exists h,
    clipboard (snd run) = Some (h, text ++ [0]) /\
    is_live h (snd run) = false /\
    new_events w (snd run) =
      [ EvOpenClipboard (Ok tt);
        EvEmptyClipboard (Ok tt);
        EvGlobalAlloc (List.length text + 1) (Ok h);
        EvGlobalLock h (Ok tt);
        EvGlobalUnlock h;
        EvSetClipboardData CF_UNICODETEXT (Some h) (Ok tt);
        EvCloseClipboard ].
Proof.
  cbn zeta. unfold detach_release, is_live.
  unfold_clipboard.
  repeat next_answer; try discriminate.
  intros _.
  repeat match goal with u : unit |- _ => destruct u end.
  eexists. unfold hand_over, find_block. cbn. rewrite !Z.eqb_refl. cbn.
  rewrite skipn_repeat_one.
  split; [reflexivity |].
  split; [| settle_trace; reflexivity].
  apply removed_block_not_live.
Qed.

(** When [CopyToClipboard] returns [true] the clipboard owns one block: the
    one allocated in this run for the length of the text plus one, holding
    the text followed by the one character the copy did not write.  The
    process no longer holds the block.  An empty text gives a block of one
    character. *)
Theorem CopyToClipboard_success_content (text : wstring) (w : World) :
  let run := CopyToClipboard detach_release text w in
  fst run = true ->
  exists h terminator,
    clipboard (snd run) = Some (h, text ++ [terminator]) /\
    is_live h (snd run) = false /\
    In (EvGlobalAlloc (List.length text + 1) (Ok h)) (new_events w (snd run)) /\
    ~ In (EvGlobalFree h) (new_events w (snd run)).
Proof.
  cbn zeta. intros Hok.
  destruct (CopyToClipboard_success_run text w Hok) as (h & Hclip & Hlive & Hevs).
  exists h, 0. rewrite Hevs.
  split; [exact Hclip |]. split; [exact Hlive |].
  split; [find_event |].
  intros Hin. no_such_event Hin.
Qed.

(** ** The process hardener *)

Lemma guards_install buffer message : guards_cache (install buffer message).
Proof. unfold install. guard_all. Qed.

Lemma guards_aslr_step : guards_cache aslr_step.
Proof. unfold aslr_step, install. guard_all. Qed.

(** The image-load block when the cache is filled: no image-path query, and
    the volume query is about the cached path. *)
Lemma image_load_step_run_cached (LONG_PATH : DWORD) (w : World) :
  wempty (m_ExeLocation w) = false ->
  exists resolved drive r,
    trace (snd (image_load_step LONG_PATH w)) =
    trace w ++ image_load_trace LONG_PATH (m_ExeLocation w) resolved drive r.
Proof.
  intros Hfilled. unfold image_load_step. unfold bind at 1.
  pose proof (GetExeLocation_run LONG_PATH w) as Hexe. cbn zeta in Hexe.
  rewrite Hfilled in Hexe.
  destruct (GetExeLocation LONG_PATH w) as [exe w1]. cbn [fst snd] in *.
  destruct Hexe as (-> & _ & ->).
  unfold GetVolumePathName, GetDriveType, image_load_trace, remote_restriction.
  unfold bind at 1. unfold syscall at 1. cbn.
  destruct (os_GetVolumePathName (os w) (trace w) (m_ExeLocation w) LONG_PATH)
    as [volume | e].
  - exists (Ok volume). run_facade. do 2 eexists.
    rewrite install_run. cbn. rewrite <- !app_assoc. reflexivity.
  - exists (Fail e), 0. run_facade. eexists.
    rewrite install_run. cbn. rewrite <- !app_assoc. reflexivity.
Qed.

(** The shape of a run, with the ASLR answer named, and with the cached
    path when there is one. *)
Lemma HardenProcess_trace_from (LONG_PATH : DWORD) (w : World) :
  exists r1 r2 r3 r4 r5 exe_events exe resolved drive r6,
    exe_location_events LONG_PATH exe_events /\
    (wempty (m_ExeLocation w) = false ->
     exe_events = [] /\ exe = m_ExeLocation w) /\
    new_events w (snd (HardenProcess LONG_PATH w)) =
      harden_trace LONG_PATH
        (os_GetProcessMitigationPolicy (os w) (trace w) ProcessASLRPolicy)
        r1 r2 r3 r4 r5 exe_events exe resolved drive r6.
Proof.
  rewrite HardenProcess_by_steps. rewrite !snd_then.
  destruct (aslr_step_run w) as [r1 H1].
  pose proof (guards_aslr_step w) as G1.
  set (w1 := snd (aslr_step w)) in *.
  pose proof (install_run dynamic_code_buffer
                "Couldn't disable dynamic code generation." w1) as H2.
  pose proof (guards_install dynamic_code_buffer
                "Couldn't disable dynamic code generation." w1) as G2.
  set (w2 := snd (install dynamic_code_buffer _ w1)) in *.
  pose proof (install_run strict_handle_buffer
                "Couldn't enable strict handle checks." w2) as H3.
  pose proof (guards_install strict_handle_buffer
                "Couldn't enable strict handle checks." w2) as G3.
  set (w3 := snd (install strict_handle_buffer _ w2)) in *.
  pose proof (install_run extension_point_buffer
                "Couldn't disable extension point DLLs." w3) as H4.
  pose proof (guards_install extension_point_buffer
                "Couldn't disable extension point DLLs." w3) as G4.
  set (w4 := snd (install extension_point_buffer _ w3)) in *.
  pose proof (install_run signature_buffer
                "Couldn't enable image signature enforcement." w4) as H5.
  pose proof (guards_install signature_buffer
                "Couldn't enable image signature enforcement." w4) as G5.
  set (w5 := snd (install signature_buffer _ w4)) in *.
  assert (Hglue : forall evs,
            trace (snd (image_load_step LONG_PATH w5)) = trace w5 ++ evs ->
            new_events w (snd (image_load_step LONG_PATH w5)) =
            aslr_trace (os_GetProcessMitigationPolicy (os w) (trace w) ProcessASLRPolicy)
              r1 ++
            install_trace dynamic_code_buffer
              "Couldn't disable dynamic code generation."
              (os_SetProcessMitigationPolicy (os w1) (trace w1) dynamic_code_buffer) ++
            install_trace strict_handle_buffer "Couldn't enable strict handle checks."
              (os_SetProcessMitigationPolicy (os w2) (trace w2) strict_handle_buffer) ++
            install_trace extension_point_buffer
              "Couldn't disable extension point DLLs."
              (os_SetProcessMitigationPolicy (os w3) (trace w3) extension_point_buffer) ++
            install_trace signature_buffer
              "Couldn't enable image signature enforcement."
              (os_SetProcessMitigationPolicy (os w4) (trace w4) signature_buffer) ++
            evs).
  { intros evs H6. apply new_events_app.
    rewrite H6, H5, H4, H3, H2, H1. rewrite <- !app_assoc. reflexivity. }
  destruct (wempty (m_ExeLocation w)) eqn:Hcache.
  - destruct (image_load_step_run LONG_PATH w5)
      as (exe_events & exe & resolved & drive & r6 & Hexe & H6).
    do 10 eexists. split; [exact Hexe |]. split; [discriminate |].
    rewrite (Hglue _ H6). reflexivity.
  - assert (Hsame : m_ExeLocation w5 = m_ExeLocation w).
    { specialize (G1 eq_refl).
      assert (F1 : wempty (m_ExeLocation w1) = false) by (rewrite G1; exact Hcache).
      specialize (G2 F1).
      assert (F2 : wempty (m_ExeLocation w2) = false) by (rewrite G2; exact F1).
      specialize (G3 F2).
      assert (F3 : wempty (m_ExeLocation w3) = false) by (rewrite G3; exact F2).
      specialize (G4 F3).
      assert (F4 : wempty (m_ExeLocation w4) = false) by (rewrite G4; exact F3).
      specialize (G5 F4).
      congruence. }
    assert (Hfilled : wempty (m_ExeLocation w5) = false) by (rewrite Hsame; exact Hcache).
    destruct (image_load_step_run_cached LONG_PATH w5 Hfilled)
      as (resolved & drive & r6 & H6).
    rewrite Hsame in H6.
    exists r1. do 4 eexists. exists [], (m_ExeLocation w), resolved, drive, r6.
    split; [apply exe_cached |]. split; [intros _; split; reflexivity |].
    rewrite (Hglue _ H6). reflexivity.
Qed.

Lemma installs_harden_trace (LONG_PATH : DWORD) queried r1 r2 r3 r4 r5
    exe_events exe resolved drive r6 :
  exe_location_events LONG_PATH exe_events ->
  installs (harden_trace LONG_PATH queried r1 r2 r3 r4 r5 exe_events exe resolved
              drive r6) =
  installs (aslr_trace queried r1) ++
  [ dynamic_code_buffer; strict_handle_buffer; extension_point_buffer;
    signature_buffer; image_load_buffer (remote_restriction resolved drive) ].
Proof.
  intros Hexe. unfold harden_trace. rewrite !installs_app.
  destruct (summary_exe_location LONG_PATH exe_events Hexe) as (_ & -> & _).
  destruct (summary_image_load LONG_PATH exe resolved drive r6) as (_ & -> & _).
  destruct r2, r3, r4, r5; reflexivity.
Qed.

(** The ASLR step changes only the fields it targets: when the query
    answers a policy, the install that follows at once carries that policy
    with [EnableForceRelocateImages] and [DisallowStrippedImages] set and
    the two other fields as queried.  When the query fails, its failure is
    reported at once and no ASLR policy is installed in the whole run. *)
Theorem HardenProcess_aslr_fields (LONG_PATH : DWORD) (w : World) :
  let evs := new_events w (snd (HardenProcess LONG_PATH w)) in
  let queried := os_GetProcessMitigationPolicy (os w) (trace w) ProcessASLRPolicy in
  hd_error evs = Some (EvGetProcessMitigationPolicy ProcessASLRPolicy queried) /\
  match queried with
  | Ok p =>
      exists r,
        nth_error evs 1 =
          Some (EvSetProcessMitigationPolicy
                  (AslrBuffer
                     {| EnableBottomUpRandomization := EnableBottomUpRandomization p;
                        EnableForceRelocateImages := true;
                        EnableHighEntropy := EnableHighEntropy p;
                        DisallowStrippedImages := true |}) r)
  | Fail e =>
      nth_error evs 1 =
        Some (EvErrorHandle (HRESULT_FROM_WIN32 e) Log
                "Couldn't get current ASLR policy.") /\
      ~ In ProcessASLRPolicy (map policy_of_buffer (installs evs))
  end.
Proof.
  cbn zeta.
  destruct (HardenProcess_trace_from LONG_PATH w)
    as (r1 & r2 & r3 & r4 & r5 & exe_events & exe & resolved & drive & r6
        & Hexe & _ & Hevs).
  rewrite Hevs. rewrite (installs_harden_trace _ _ _ _ _ _ _ _ _ _ _ _ Hexe).
  unfold harden_trace.
  destruct (os_GetProcessMitigationPolicy (os w) (trace w) ProcessASLRPolicy)
    as [p | e]; cbn.
  - split; [reflexivity |]. eexists. reflexivity.
  - split; [reflexivity |]. split; [reflexivity |].
    intros Hin. no_such_event Hin.
Qed.

(** What [HardenProcess] asks for is the same in every run: after the ASLR
    install, if there is one, it installs dynamic code prohibited without
    thread opt-out or remote downgrade, strict handle checks raised and
    permanent, extension points disabled, the signature opt-in, and the
    image-load policy with low-label images refused and System32 preferred,
    in this order and each once. *)
Theorem HardenProcess_policy_values (LONG_PATH : DWORD) (w : World) :
  let evs := new_events w (snd (HardenProcess LONG_PATH w)) in
  exists aslr noRemoteImages,
    installs evs =
      aslr ++
      [ DynamicCodeBuffer
          {| ProhibitDynamicCode := true; AllowThreadOptOut := false;
             AllowRemoteDowngrade := false |};
        StrictHandleBuffer
          {| RaiseExceptionOnInvalidHandleReference := true;
             HandleExceptionsPermanentlyEnabled := true |};
        ExtensionPointBuffer {| DisableExtensionPoints := true |};
        SignatureBuffer
          {| MicrosoftSignedOnly := false; StoreSignedOnly := false;
             MitigationOptIn := true |};
        ImageLoadBuffer
          {| NoRemoteImages := noRemoteImages;
             NoLowMandatoryLabelImages := true;
             PreferSystem32Images := true |} ] /\
    (aslr = [] \/ exists p, aslr = [AslrBuffer p]).
Proof.
  cbn zeta.
  destruct (HardenProcess_trace_from LONG_PATH w)
    as (r1 & r2 & r3 & r4 & r5 & exe_events & exe & resolved & drive & r6
        & Hexe & _ & Hevs).
  rewrite Hevs. rewrite (installs_harden_trace _ _ _ _ _ _ _ _ _ _ _ _ Hexe).
  exists (installs (aslr_trace
                      (os_GetProcessMitigationPolicy (os w) (trace w) ProcessASLRPolicy)
                      r1)),
         (remote_restriction resolved drive).
  split.
  - reflexivity.
  - destruct (os_GetProcessMitigationPolicy (os w) (trace w) ProcessASLRPolicy)
      as [p | e]; [right; eexists; destruct r1; reflexivity | left; reflexivity].
Qed.

(** Hardening a process that already knows its path does not ask again:
    when the cache is filled, the run makes no image-path query, calls the
    sink at [Log] severity only, and resolves the volume of the cached
    path. *)
Theorem HardenProcess_uses_cached_path (LONG_PATH : DWORD) (w : World) :
  wempty (m_ExeLocation w) = false ->
  let evs := new_events w (snd (HardenProcess LONG_PATH w)) in
  existsb is_image_query evs = false /\
  Forall (fun level => level = Log) (sink_levels evs) /\
  exists resolved,
    In (EvGetVolumePathName (m_ExeLocation w) LONG_PATH resolved) evs.
Proof.
  intros Hfilled. cbn zeta.
  destruct (HardenProcess_trace_from LONG_PATH w)
    as (r1 & r2 & r3 & r4 & r5 & exe_events & exe & resolved & drive & r6
        & _ & Hcached & Hevs).
  destruct (Hcached Hfilled) as [-> ->].
  rewrite Hevs. unfold harden_trace, sink_levels.
  split; [| split].
  - destruct (os_GetProcessMitigationPolicy (os w) (trace w) ProcessASLRPolicy)
      as [p | e]; destruct r1, r2, r3, r4, r5, resolved, r6; reflexivity.
  - destruct (os_GetProcessMitigationPolicy (os w) (trace w) ProcessASLRPolicy)
      as [p | e]; destruct r1, r2, r3, r4, r5, resolved, r6; cbn;
      repeat constructor.
  - exists resolved. rewrite !app_assoc. apply in_or_app. right. left. reflexivity.
Qed.

(** ** The version probe and the architecture name *)

Ltac run_x :=
  unfold xbind, xret, xsyscall, xcall, lift, undefined, xrecord, GetLastError; cbn.

(** [GetProcessorArchitecture] always answers with one of seven names.  It
    answers ["Invalid"] exactly for the values that are none of the six
    architecture constants, and two runs that give the same name other than
    ["Invalid"] were told the same architecture. *)
Theorem GetProcessorArchitecture_names (x y : XWorld) :
  exists a b x' y',
    GetProcessorArchitecture x = Some (a, x') /\
    GetProcessorArchitecture y = Some (b, y') /\
    In a [L "x64"; L "x86"; L "ARM64"; L "ARM"; L "Itanium"; L "Unknown"; L "Invalid"] /\
    (a = L "Invalid" <->
     ~ In (architecture_answer x)
          [ PROCESSOR_ARCHITECTURE_AMD64; PROCESSOR_ARCHITECTURE_INTEL;
            PROCESSOR_ARCHITECTURE_ARM64; PROCESSOR_ARCHITECTURE_ARM;
            PROCESSOR_ARCHITECTURE_IA64; PROCESSOR_ARCHITECTURE_UNKNOWN ]) /\
    (a = b -> a <> L "Invalid" -> architecture_answer x = architecture_answer y).
Proof.
  unfold GetProcessorArchitecture, GetNativeSystemInfo, architecture_answer.
  run_x.
  set (p := xos_GetNativeSystemInfo (xos x) (trace (base x)) (xtrace x)).
  set (q := xos_GetNativeSystemInfo (xos y) (trace (base y)) (xtrace y)).
  do 4 eexists. split; [reflexivity |]. split; [reflexivity |].
  unfold PROCESSOR_ARCHITECTURE_AMD64, PROCESSOR_ARCHITECTURE_INTEL,
    PROCESSOR_ARCHITECTURE_ARM64, PROCESSOR_ARCHITECTURE_ARM,
    PROCESSOR_ARCHITECTURE_IA64, PROCESSOR_ARCHITECTURE_UNKNOWN.
  destruct (Z.eqb_spec p 9); [| destruct (Z.eqb_spec p 0);
    [| destruct (Z.eqb_spec p 12); [| destruct (Z.eqb_spec p 5);
    [| destruct (Z.eqb_spec p 6); [| destruct (Z.eqb_spec p 65535)]]]]];
  (split; [find_event |]);
  (split; [split; [try discriminate; intros _ Hin; no_such_event Hin; congruence
                  | try reflexivity; intros Hnot; exfalso; apply Hnot; cbn; auto 10] |]);
  try (intros _ Hinv; exfalso; apply Hinv; reflexivity);
  (destruct (Z.eqb_spec q 9); [| destruct (Z.eqb_spec q 0);
    [| destruct (Z.eqb_spec q 12); [| destruct (Z.eqb_spec q 5);
    [| destruct (Z.eqb_spec q 6); [| destruct (Z.eqb_spec q 65535)]]]]]);
  intros Hab Hinv; try discriminate Hab; congruence.
Qed.


Lemma firstn_prefix {A} (v rest : list A) :
  firstn (List.length v) (v ++ rest) = v.
Proof.
  rewrite firstn_app, Nat.sub_diag, firstn_all. cbn. apply app_nil_r.
Qed.

(** When the three steps succeed and the value found is a string with its
    terminating null character, reported with the length that counts the
    terminator, [GetFileVersion] returns the string without the terminator,
    and [S_OK]. *)
Theorem GetFileVersion_strips_terminator
    (file : wstring) (x : XWorld) (size handle : DWORD) (block : VersionBlock)
    (version rest : wstring) :
  size_answer file x = Ok (size, handle) ->
  size <> 0 ->
  info_answer file x (size, handle) = Ok block ->
  value_answer file x (size, handle) block =
    Ok (version ++ 0 :: rest, Z.of_nat (List.length version) + 1) ->
  Z.of_nat (List.length version) < 2 ^ 32 ->
  exists x', GetFileVersion file x = Some ((version, S_OK), x').
Proof.
  unfold size_answer, info_answer, value_answer, GetFileVersion,
    GetFileVersionInfoSize, GetFileVersionInfo, VerQueryValue, wstring_of_pointer.
  run_x. intros Hsize Hnz Hinfo Hvalue Hbound.
  rewrite Hsize. cbn. apply Z.eqb_neq in Hnz. rewrite Hnz. cbn.
  rewrite Hinfo. cbn. rewrite Hvalue. cbn.
  replace (Z.of_nat (Datatypes.length version) + 1 - 1)
    with (Z.of_nat (Datatypes.length version)) by lia.
  unfold to_u32. rewrite Z.mod_small by lia.
  rewrite length_app. cbn [List.length].
  destruct (Z.leb_spec (Z.of_nat (Datatypes.length version))
              (Z.of_nat (Datatypes.length version + S (Datatypes.length rest))));
    [| lia].
  cbn. rewrite Nat2Z.id, firstn_prefix. eexists. reflexivity.
Qed.

(** The count [length - 1] is taken on unsigned integers: when the three
    steps succeed but the value is reported with length zero, the count
    wraps around to [2^32 - 1] and [GetFileVersion] reads past the value:
    its behaviour is undefined. *)
Theorem GetFileVersion_zero_length
    (file : wstring) (x : XWorld) (size handle : DWORD) (block : VersionBlock)
    (memory : wstring) :
  size_answer file x = Ok (size, handle) ->
  size <> 0 ->
  info_answer file x (size, handle) = Ok block ->
  value_answer file x (size, handle) block = Ok (memory, 0) ->
  Z.of_nat (List.length memory) < 2 ^ 32 - 1 ->
  GetFileVersion file x = None.
Proof.
  unfold size_answer, info_answer, value_answer, GetFileVersion,
    GetFileVersionInfoSize, GetFileVersionInfo, VerQueryValue, wstring_of_pointer.
  run_x. intros Hsize Hnz Hinfo Hvalue Hbound.
  rewrite Hsize. cbn. apply Z.eqb_neq in Hnz. rewrite Hnz. cbn.
  rewrite Hinfo. cbn. rewrite Hvalue. cbn.
  match goal with |- context [?a <=? ?b] => destruct (Z.leb_spec a b) end;
    [lia | reflexivity].
Qed.

(** [GetWindowsBuild] passes a failure of either path step on unchanged: it
    returns the empty string with that very [HRESULT] and asks for no
    version.  When both steps succeed it asks [PathAllocCombine] for
    ["kernel32.dll"] under the system directory and returns what
    [GetFileVersion] returns for the combined path; a null combined path is
    undefined behaviour. *)
Theorem GetWindowsBuild_delegates (x : XWorld) :
  let got := folder_answer x in
  let combined := combine_answer x in
  if FAILED (fst got)
  then
    exists x',
      GetWindowsBuild x = Some (([], fst got), x') /\
      xtrace x' =
        xtrace x ++
        XSHGetKnownFolderPath (fst got) (snd got) ::
        match snd got with Some p => [XCoTaskMemFree p] | None => [] end
  else if FAILED (fst combined)
  then
    exists x',
      GetWindowsBuild x = Some (([], fst combined), x') /\
      xtrace x' =
        xtrace x ++
        XSHGetKnownFolderPath (fst got) (snd got) ::
        XPathAllocCombine (snd got) (L "kernel32.dll") PATHCCH_ALLOW_LONG_PATHS
          (fst combined) (snd combined) ::
        match snd combined with Some p => [XLocalFree p] | None => [] end ++
        match snd got with Some p => [XCoTaskMemFree p] | None => [] end
  else
    match snd combined with
    | None => GetWindowsBuild x = None
    | Some path =>
        option_map fst (GetWindowsBuild x) =
        option_map fst (GetFileVersion path (after_combine x))
    end.
Proof.
  cbn zeta.
  unfold GetWindowsBuild, SHGetKnownFolderPath, PathAllocCombine,
    CoTaskMem_dtor, Local_dtor, after_combine, combine_answer, folder_answer.
  unfold xbind, xret, xcall, xrecord, undefined. cbn -[GetFileVersion].
  destruct (xos_SHGetKnownFolderPath (xos x) (trace (base x)) (xtrace x))
    as [hr system32].
  cbn -[GetFileVersion].
  destruct (FAILED hr) eqn:Hgot.
  - destruct system32 as [p |]; eexists; (split; [reflexivity |]); cbn;
      rewrite <- ?app_assoc; reflexivity.
  - match goal with |- context [xos_PathAllocCombine ?o ?t ?u ?a ?b ?c] =>
      set (combined := xos_PathAllocCombine o t u a b c) end.
    repeat match goal with |- context [xos_PathAllocCombine ?o ?t ?u ?a ?b ?c] =>
      change (xos_PathAllocCombine o t u a b c) with combined end.
    clearbody combined. destruct combined as [hr2 kernel32].
    cbn -[GetFileVersion].
    destruct (FAILED hr2) eqn:Hcombined.
    + destruct kernel32 as [q |]; destruct system32 as [p |];
        eexists; (split; [reflexivity |]); cbn; rewrite <- ?app_assoc; reflexivity.
    + destruct kernel32 as [path |]; [| reflexivity].
      match goal with |- context [GetFileVersion path ?v] =>
        destruct (GetFileVersion path v) as [[r v'] |] end; [| reflexivity].
      destruct system32 as [p |]; reflexivity.
Qed.

(** ** The recovery threads *)

(** A recovery thread asks once, with the warning icon and the yes/no
    buttons.  Any answer but [IDYES] ends it with nothing else done: the
    world of the clipboard family is as before.  On [IDYES] it runs
    [CopyToClipboard] on the target the launcher captured, and when that
    copy returns [true] the clipboard holds the target followed by one
    character. *)
Theorem recovery_body_outcome
    (ExceptionFromHRESULT : HRESULT -> wstring) (NAME : wstring)
    (what question : string) (p : RecoveryPrompt) (x : XWorld) :
  let text :=
    boxbuffer ExceptionFromHRESULT what (prompt_target p) (prompt_err p) question in
  let answer :=
    xos_MessageBox (xos x) (trace (base x)) (xtrace x) text (NAME ++ L " - Error")
      65588 in
  exists x',
    recovery_body detach_release ExceptionFromHRESULT NAME what question p x =
      Some (tt, x') /\
    xtrace x' = xtrace x ++ [XMessageBox text (NAME ++ L " - Error") 65588 answer] /\
    (answer <> IDYES -> base x' = base x) /\
    (answer = IDYES ->
     base x' = snd (CopyToClipboard detach_release (prompt_target p) (base x)) /\
     (fst (CopyToClipboard detach_release (prompt_target p) (base x)) = true ->
      exists h terminator,
        clipboard (base x') = Some (h, prompt_target p ++ [terminator]))).
Proof.
  cbn zeta. unfold recovery_body, MessageBox.
  unfold xbind at 1. unfold xcall at 1. cbn [fst snd].
  change (Z.lor (Z.lor MB_ICONWARNING MB_YESNO) MB_SETFOREGROUND) with 65588.
  set (text := boxbuffer ExceptionFromHRESULT what (prompt_target p) (prompt_err p)
                 question).
  set (answer := xos_MessageBox (xos x) (trace (base x)) (xtrace x) text
                   (NAME ++ L " - Error") 65588).
  destruct (Z.eqb_spec answer IDYES) as [Hyes | Hno].
  - unfold xbind, lift, xret, xrecord. cbn [base xos xtrace].
    eexists. split; [reflexivity |]. split; [reflexivity |].
    split; [intros Hnot; contradiction |].
    intros _. cbn [base]. split; [reflexivity |].
    intros Hok.
    destruct (CopyToClipboard_success_run (prompt_target p) (base x) Hok)
      as (h & Hclip & _).
    exists h, 0. exact Hclip.
  - unfold xret, xrecord. eexists. split; [reflexivity |]. split; [reflexivity |].
    split; [intros _; reflexivity | intros Hyes; contradiction].
Qed.

(** ** Concrete runs of the rest of the facade *)

Lemma OpenLink_recovery_witness :
  wstring_at (L "https://example.com") 4 = Some (wchar_of_ascii "s") /\
  exists w',
    OpenLink (L "https://example.com") (boot broken_shell) = Some (tt, w') /\
    threads_detached (new_events (boot broken_shell) w') =
      [{| prompt_target := L "https://example.com"; prompt_err := 2 |}].
Proof.
  split; [reflexivity |].
  destruct (OpenLink_recovery (L "https://example.com") (boot broken_shell)
              (wchar_of_ascii "s") eq_refl)
    as (w' & info & r & Hrun & Hevs & _).
  exists w'. split; [exact Hrun |].
  unfold OpenLink in Hrun. cbn in Hrun.
  injection Hrun as <-. reflexivity.
Defined.

Lemma CopyToClipboard_success_content_witness :
  let run := CopyToClipboard detach_release (L "a") (boot obliging) in
  fst run = true /\
  exists h terminator, clipboard (snd run) = Some (h, L "a" ++ [terminator]).
Proof.
  cbn zeta. split; [reflexivity |].
  destruct (CopyToClipboard_success_content (L "a") (boot obliging) eq_refl)
    as (h & terminator & Hclip & _).
  exists h, terminator. exact Hclip.
Defined.

Lemma HardenProcess_uses_cached_path_witness :
  let w := snd (GetExeLocation sample_LONG_PATH (boot obliging)) in
  wempty (m_ExeLocation w) = false /\
  existsb is_image_query
    (new_events w (snd (HardenProcess sample_LONG_PATH w))) = false.
Proof.
  cbn zeta. split; [reflexivity |].
  exact (proj1 (HardenProcess_uses_cached_path sample_LONG_PATH
                  (snd (GetExeLocation sample_LONG_PATH (boot obliging))) eq_refl)).
Defined.

Lemma GetFileVersion_strips_terminator_witness :
  exists x',
    GetFileVersion (L "C:\Windows\System32\kernel32.dll") (xboot obliging versioned) =
    Some ((L "10.0.19041.1", S_OK), x').
Proof.
  apply (GetFileVersion_strips_terminator
           (L "C:\Windows\System32\kernel32.dll") (xboot obliging versioned)
           1024 0 [52; 3] (L "10.0.19041.1") []);
    [reflexivity | discriminate | reflexivity | reflexivity | reflexivity].
Defined.

Lemma GetFileVersion_zero_length_witness :
  GetFileVersion (L "C:\Windows\System32\kernel32.dll") (xboot obliging empty_version) =
  None.
Proof.
  apply (GetFileVersion_zero_length
           (L "C:\Windows\System32\kernel32.dll") (xboot obliging empty_version)
           1024 0 [52; 3] []);
    [reflexivity | discriminate | reflexivity | reflexivity | reflexivity].
Defined.

Lemma recovery_body_outcome_witness :
  let p := {| prompt_target := L "C:\settings.json"; prompt_err := 2 |} in
  exists x' h terminator,
    EditFile_thread detach_release (fun _ => L "not found") (L "TranslucentTB") p
      (xboot obliging versioned) = Some (tt, x') /\
    clipboard (base x') = Some (h, L "C:\settings.json" ++ [terminator]).
Proof.
  cbn zeta.
  destruct (recovery_body_outcome (fun _ => L "not found") (L "TranslucentTB")
              "file" "Copy the file location to the clipboard?"
              {| prompt_target := L "C:\settings.json"; prompt_err := 2 |}
              (xboot obliging versioned))
    as (x' & Hrun & _ & _ & Hyes).
  destruct (Hyes eq_refl) as [_ Hclip].
  destruct (Hclip eq_refl) as (h & terminator & Hcontent).
  exists x', h, terminator. split; [exact Hrun | exact Hcontent].
Defined.

(** [GetWindowsBuild] on the versioned system, and on one that has lost its
    system directory. *)
Example GetWindowsBuild_runs :
  option_map fst (GetWindowsBuild (xboot obliging versioned)) =
    Some (L "10.0.19041.1", S_OK) /\
  option_map fst (GetWindowsBuild (xboot obliging lost_system32)) =
    Some ([], -2147467259) /\
  option_map fst
    (GetFileVersion (L "C:\notes.txt") (xboot obliging unversioned)) =
    Some ([], -2147023083).
Proof. repeat split; reflexivity. Qed.

(** A refused [EditFile]: one launch, one recovery thread, no log. *)
Example EditFile_refused_run :
  trace (snd (EditFile (L "C:\settings.json") (boot broken_shell))) =
    [ EvShellExecuteEx
        {| fMask := SEE_MASK_CLASSNAME; lpVerb := L "open";
           lpFile := L "C:\settings.json"; nShow := SW_SHOW;
           lpClass := L "txtfile" |} (Fail 2);
      EvThreadDetach {| prompt_target := L "C:\settings.json"; prompt_err := 2 |} ].
Proof. reflexivity. Qed.
